(** * ISPLab02 syringe pump drivers: the Modbus RTU codec and the two
      transaction engines, embedded from
      [src/isplab02_modbus_controller.py] and
      [src/syringe_pump_controller.py]. *)

From Stdlib Require Import ZArith Lia Bool Ascii String.
From Stdlib Require Import Floats.SpecFloat.
From stdpp Require Import base option list strings gmap.

Local Open Scope string_scope.
Local Open Scope list_scope.
Local Open Scope Z_scope.

(** ** Python values and exceptions *)

(** A [bytes] object is a sequence of integers; Python keeps every element
    in [0, 256).  The range is carried by [wf_bytes]. *)
Abbreviation bytes := (list Z).

Definition is_byte (b : Z) : Prop := 0 <= b < 256.
Definition wf_bytes (l : bytes) : Prop := Forall is_byte l.
Definition is_word16 (c : Z) : Prop := 0 <= c < 65536.

(** The exceptions the drivers can meet. *)
Inductive exn :=
| ValueError            (* raise ValueError(...) in build_request *)
| StructError           (* struct.error: argument out of range, None, bad size *)
| IndexError            (* bytes index out of range *)
| AttributeError        (* method call on None *)
| OverflowError         (* int(inf) *)
| UnicodeError          (* str.encode('ascii') / bytes.decode('ascii') *)
| SerialException.      (* raised by the serial channel *)

Inductive result (A : Type) :=
| Ok (a : A)
| Raise (e : exn).
Arguments Ok {A} a.
Arguments Raise {A} e.

Definition rbind {A B} (r : result A) (k : A -> result B) : result B :=
  match r with
  | Ok a => k a
  | Raise e => Raise e
  end.

Declare Scope result_scope.
Delimit Scope result_scope with result.
Notation "x <- r ;; k" := (rbind r (fun x => k))
  (at level 100, r at next level, right associativity) : result_scope.

(** ** [struct.pack] / [struct.unpack] for the formats the codec uses *)

Inductive endian := BigEndian | LittleEndian.

(** One format character together with its argument; [None] is Python's
    [None] (the default of [value] in [build_request]). *)
Inductive field :=
| B (x : option Z)          (* unsigned char,  1 byte  *)
| H (x : option Z).         (* unsigned short, 2 bytes *)

Definition pack_field (e : endian) (f : field) : result bytes :=
  match f with
  | B None | H None => Raise StructError
  | B (Some x) =>
      if (0 <=? x) && (x <? 256) then Ok [x] else Raise StructError
  | H (Some x) =>
      if (0 <=? x) && (x <? 65536) then
        Ok (match e with
            | BigEndian => [x / 256; x mod 256]
            | LittleEndian => [x mod 256; x / 256]
            end)
      else Raise StructError
  end.

Fixpoint struct_pack (e : endian) (fs : list field) : result bytes :=
  match fs with
  | [] => Ok []
  | f :: fs' =>
      (hd <- pack_field e f ;;
       tl <- struct_pack e fs' ;;
       Ok (hd ++ tl))%result
  end.

(** [struct.unpack('>H', b)[0]] and [struct.unpack('<H', b)[0]]: the buffer
    must hold exactly two bytes. *)
Definition struct_unpack_H (e : endian) (b : bytes) : result Z :=
  match b with
  | [b0; b1] =>
      Ok (match e with
          | BigEndian => b0 * 256 + b1
          | LittleEndian => b1 * 256 + b0
          end)
  | _ => Raise StructError
  end.

(** Python slices clip to the sequence; an index does not. *)
Definition slice (lo hi : nat) (l : bytes) : bytes := take (hi - lo) (drop lo l).
(** [l[-n:]] *)
Definition slice_last (n : nat) (l : bytes) : bytes := drop (length l - n) l.
(** [l[:-n]] *)
Definition slice_but_last (n : nat) (l : bytes) : bytes := take (length l - n) l.

Definition index (l : bytes) (i : nat) : result Z :=
  match l !! i with
  | Some b => Ok b
  | None => Raise IndexError
  end.

(** ** Logging, the serial channel and the effect monad *)

Inductive level := DEBUG | INFO | ERROR.

(** The value interpolated at a [{...}] of an f-string. *)
Inductive arg :=
| AStr (s : string)
| AInt (z : Z)
| AOptInt (o : option Z)
| AFloat (x : spec_float)
| AExn (e : exn).

(** What a call leaves behind: calls on the serial channel, the settling
    delay, and records handed to the logger (template and arguments). The
    logger receives DEBUG records too; the INFO threshold of
    [logging.basicConfig] only hides them from the output. *)
Inductive event :=
| SerialOpen
| SerialClose
| SerialWrite (data : bytes)
| SerialRead (size : nat)
| SerialReadline
| Sleep (ms : Z)
| Log (lvl : level) (template : string) (args : list arg).

(** Bytes on the wire: a write, a read or a readline. *)
Definition is_channel_io (ev : event) : bool :=
  match ev with
  | SerialWrite _ | SerialRead _ | SerialReadline => true
  | _ => false
  end.

Definition channel_io (t : list event) : list event :=
  List.filter is_channel_io t.

Definition is_write (ev : event) : bool :=
  match ev with
  | SerialWrite _ => true
  | _ => false
  end.

(** The pyserial object held in [serial_conn]. *)
Record Serial := { is_open : bool }.

Definition close (conn : Serial) : Serial := {| is_open := false |}.

(** The far end of the line: whether the port opens, whether a write goes
    through, and the bytes waiting after a given request (none when the
    read times out). *)
Record device := {
  dev_open : result unit;
  dev_write : bytes -> result unit;
  dev_pending : bytes -> result bytes
}.

Definition io (A : Type) : Type := (list event * result A)%type.

Definition ret {A} (a : A) : io A := ([], Ok a).
Definition throw {A} (e : exn) : io A := ([], Raise e).
Definition lift {A} (r : result A) : io A := ([], r).
Definition emit (ev : event) : io unit := ([ev], Ok tt).

Definition bind {A B} (m : io A) (k : A -> io B) : io B :=
  match m with
  | (t, Ok a) => let (t', r) := k a in (t ++ t', r)
  | (t, Raise e) => (t, Raise e)
  end.

(** [try: m  except Exception as e: h e] *)
Definition try_except {A} (m : io A) (h : exn -> io A) : io A :=
  match m with
  | (t, Raise e) => let (t', r) := h e in (t ++ t', r)
  | (t, Ok a) => (t, Ok a)
  end.

Declare Scope io_scope.
Delimit Scope io_scope with io.
Notation "x <- m ;; k" := (bind m (fun x => k))
  (at level 100, m at next level, right associativity) : io_scope.
Notation "m ;;; k" := (bind m (fun _ => k))
  (at level 100, right associativity) : io_scope.

Definition trace_of {A} (m : io A) : list event := fst m.
Definition value_of {A} (m : io A) : result A := snd m.

Definition log (lvl : level) (template : string) (args : list arg) : io unit :=
  emit (Log lvl template args).

(** [serial_conn.write(data)]: [None] has no such method, a closed port
    refuses, an open one asks the line. *)
Definition serial_write (dev : device) (conn : option Serial) (data : bytes)
  : io unit :=
  match conn with
  | None => throw AttributeError
  | Some c =>
      if is_open c then (emit (SerialWrite data) ;;; lift (dev_write dev data))%io
      else throw SerialException
  end.

(** [serial_conn.read(size)] after [request] went out. *)
Definition serial_read (dev : device) (conn : option Serial) (request : bytes)
    (size : nat) : io bytes :=
  match conn with
  | None => throw AttributeError
  | Some c =>
      if is_open c then
        (emit (SerialRead size) ;;;
         pending <- lift (dev_pending dev request) ;;
         ret (take size pending))%io
      else throw SerialException
  end.

(** A line ends with the first LF, which it includes. *)
Fixpoint first_line (pending : bytes) : bytes :=
  match pending with
  | [] => []
  | b :: rest => if b =? 10 then [b] else b :: first_line rest
  end.

(** [serial_conn.readline()] after [request] went out. *)
Definition serial_readline (dev : device) (conn : option Serial)
    (request : bytes) : io bytes :=
  match conn with
  | None => throw AttributeError
  | Some c =>
      if is_open c then
        (emit SerialReadline ;;;
         pending <- lift (dev_pending dev request) ;;
         ret (first_line pending))%io
      else throw SerialException
  end.

(** Rebinding [self.serial_conn] drops the last reference to the [Serial]
    object it held; the finalizer of that object closes its port when the
    port is still open. *)
Definition finalize (replaced : option Serial) : io unit :=
  match replaced with
  | Some c => if is_open c then emit SerialClose else ret tt
  | None => ret tt
  end.

(** [serial_conn.write], looked up before the argument of the call is
    evaluated: [None] has no such attribute. *)
Definition serial_method (conn : option Serial) : io unit :=
  match conn with
  | Some _ => ret tt
  | None => throw AttributeError
  end.

(** ** Floats: binary64, as Python has them *)

Definition prec : Z := 53.
Definition emax : Z := 1024.

Definition float_of_Z (n : Z) : spec_float := binary_normalize prec emax n 0 false.
(** The literal [n / 10^k] rounds to nearest, as a correctly rounded
    quotient does. *)
Definition float_lit (n : Z) (k : Z) : spec_float :=
  SFdiv prec emax (float_of_Z n) (float_of_Z (10 ^ k)).

Definition fmul (x y : spec_float) : spec_float := SFmul prec emax x y.

(** [int(x)]: truncation toward zero. *)
Definition int_of_float (x : spec_float) : result Z :=
  match x with
  | S754_zero _ => Ok 0
  | S754_infinity _ => Raise OverflowError
  | S754_nan => Raise ValueError
  | S754_finite s m e =>
      let mag := Z.shiftl (Z.pos m) e in
      Ok (if s then - mag else mag)
  end.

(** [lo <= x <= hi] *)
Definition between (lo x hi : spec_float) : bool := SFleb lo x && SFleb x hi.

(** ** Text *)

Definition CRLF : string := String (ascii_of_nat 13) (String (ascii_of_nat 10) EmptyString).

Definition endswith (s suffix : string) : bool :=
  let n := String.length s in
  let k := String.length suffix in
  (k <=? n)%nat && String.eqb (substring (n - k) k s) suffix.

Definition is_space (c : ascii) : bool :=
  let n := nat_of_ascii c in
  ((9 <=? n) && (n <=? 13) || (28 <=? n) && (n <=? 32))%nat.

Fixpoint lstrip (s : string) : string :=
  match s with
  | String c s' => if is_space c then lstrip s' else s
  | EmptyString => EmptyString
  end.

Fixpoint rstrip (s : string) : string :=
  match s with
  | String c s' =>
      match rstrip s' with
      | EmptyString => if is_space c then EmptyString else String c EmptyString
      | r => String c r
      end
  | EmptyString => EmptyString
  end.

Definition strip (s : string) : string := rstrip (lstrip s).

Fixpoint encode_ascii (s : string) : result bytes :=
  match s with
  | EmptyString => Ok []
  | String c s' =>
      let n := Z.of_nat (nat_of_ascii c) in
      if n <? 128 then (tl <- encode_ascii s' ;; Ok (n :: tl))%result
      else Raise UnicodeError
  end.

Fixpoint decode_ascii (b : bytes) : result string :=
  match b with
  | [] => Ok EmptyString
  | n :: b' =>
      if n <? 128 then
        (tl <- decode_ascii b' ;; Ok (String (ascii_of_nat (Z.to_nat n)) tl))%result
      else Raise UnicodeError
  end.

(** ** class ModbusRTU *)

Module ModbusRTU.

(** One round of the inner loop of [calculate_crc16]. *)
Definition crc_shift (crc : Z) : Z :=
  if negb (Z.land crc 0x0001 =? 0) then Z.lxor (Z.shiftr crc 1) 0xA001
  else Z.shiftr crc 1.

(** The body of the outer loop: [crc ^= byte] and eight rounds. *)
Definition crc_byte (crc byte : Z) : Z :=
  Nat.iter 8 crc_shift (Z.lxor crc byte).

Definition calculate_crc16 (data : bytes) : Z :=
  fold_left crc_byte data 0xFFFF.

Definition build_request (slave_id function_code register_addr : Z)
    (value : option Z) (count : Z) : result bytes :=
  (data <-
     (if function_code =? 3 then
        struct_pack BigEndian
          [B (Some slave_id); B (Some function_code);
           H (Some register_addr); H (Some count)]
      else if function_code =? 6 then
        struct_pack BigEndian
          [B (Some slave_id); B (Some function_code);
           H (Some register_addr); H value]
      else if function_code =? 16 then
        let byte_count := 2 in
        struct_pack BigEndian
          [B (Some slave_id); B (Some function_code);
           H (Some register_addr); H (Some 1); B (Some byte_count); H value]
      else Raise ValueError) ;;
   let crc := calculate_crc16 data in
   tail <- struct_pack LittleEndian [H (Some crc)] ;;
   Ok (data ++ tail))%result.

Definition parse_response (response : bytes) : io (option Z) :=
  if (length response <? 5)%nat then ret None
  else
    (received_crc <- lift (struct_unpack_H LittleEndian (slice_last 2 response)) ;;
     let calculated_crc := calculate_crc16 (slice_but_last 2 response) in
     if negb (received_crc =? calculated_crc) then
       (log ERROR "CRC check failed" [] ;;; ret None)
     else
       function_code <- lift (index response 1) ;;
       if function_code =? 3 then
         if (7 <=? length response)%nat then
           (v <- lift (struct_unpack_H BigEndian (slice 3 5 response)) ;;
            ret (Some v))
         else ret None
       else if function_code =? 6 then
         if (8 <=? length response)%nat then
           (v <- lift (struct_unpack_H BigEndian (slice 4 6 response)) ;;
            ret (Some v))
         else ret None
       else ret None)%io.

End ModbusRTU.

Import ModbusRTU.

(** The test [parse_response] applies to a frame: its last two bytes, read
    little-endian, against the CRC of the bytes before them. *)
Definition crc_matches (response : bytes) : result bool :=
  (received_crc <- struct_unpack_H LittleEndian (slice_last 2 response) ;;
   Ok (received_crc =? calculate_crc16 (slice_but_last 2 response)))%result.

(** A frame: the packed fields followed by their CRC, low byte first. *)
Definition with_crc (data : bytes) : bytes :=
  data ++ [calculate_crc16 data mod 256; calculate_crc16 data / 256].

(** Two bytes at offset [k] read as a 16-bit number. *)
Definition be16_at (k : nat) (l : bytes) : Z := nth k l 0 * 256 + nth (S k) l 0.
Definition le16_at (k : nat) (l : bytes) : Z := nth (S k) l 0 * 256 + nth k l 0.

(** The decoding in the words of the specification, to be compared with
    [parse_response]: no value for a frame shorter than 5 bytes or whose
    trailing little-endian CRC differs from the CRC of the bytes before it;
    else the big-endian value at offset 3 for function 3 and length >= 7,
    at offset 4 for function 6 and length >= 8; else no value. *)
Definition parse_response_spec (response : bytes) : option Z :=
  let n := length response in
  if (n <? 5)%nat then None
  else if negb (le16_at (n - 2) response =? calculate_crc16 (take (n - 2) response))
  then None
  else if (nth 1 response 0 =? 3) && (7 <=? n)%nat then Some (be16_at 3 response)
  else if (nth 1 response 0 =? 6) && (8 <=? n)%nat then Some (be16_at 4 response)
  else None.

(** Flipping bit [k] of the byte at index [i]. *)
Definition flip_bit (seq : bytes) (i : nat) (k : Z) : bytes :=
  match seq !! i with
  | Some b => <[i := Z.lxor b (Z.shiftl 1 k)]> seq
  | None => seq
  end.

(** ** class PumpMode *)

Inductive PumpMode :=
| INFUSION
| WITHDRAWAL
| INFUSION_WITHDRAWAL
| WITHDRAWAL_INFUSION.

Definition PumpMode_name (mode : PumpMode) : string :=
  match mode with
  | INFUSION => "INFUSION"
  | WITHDRAWAL => "WITHDRAWAL"
  | INFUSION_WITHDRAWAL => "INFUSION_WITHDRAWAL"
  | WITHDRAWAL_INFUSION => "WITHDRAWAL_INFUSION"
  end.

(** ** class ISPLab02ModbusController *)

Module ISPLab02ModbusController.

Definition REGISTERS : gmap string Z :=
  list_to_map
    [("MODE", 0x0001); ("FLOW_RATE", 0x0010); ("VOLUME", 0x0020);
     ("SYRINGE_DIA", 0x0030); ("START_STOP", 0x0040); ("STATUS", 0x0050);
     ("DIRECTION", 0x0060); ("LINEAR_SPEED", 0x0070)].

Record controller := {
  port : string;
  baudrate : Z;
  slave_id : Z;
  serial_conn : option Serial;
  is_connected : bool
}.

Definition __init__ (port : string) (baudrate slave_id : Z) : controller :=
  {| port := port; baudrate := baudrate; slave_id := slave_id;
     serial_conn := None; is_connected := false |}.

Definition set_conn (self : controller) (conn : option Serial) (flag : bool)
  : controller :=
  {| port := port self; baudrate := baudrate self; slave_id := slave_id self;
     serial_conn := conn; is_connected := flag |}.

(** Only [serial.SerialException] is caught; anything else the constructor
    raises leaves the method.  The new port is open before the assignment
    releases the handle held so far. *)
Definition connect (dev : device) (self : controller) : controller * io bool :=
  match dev_open dev with
  | Ok _ =>
      (set_conn self (Some {| is_open := true |}) true,
       (emit SerialOpen ;;;
        finalize (serial_conn self) ;;;
        log INFO "Connected to ISPLab02 on {} (Modbus RTU)" [AStr (port self)] ;;;
        ret true)%io)
  | Raise SerialException =>
      (self,
       (log ERROR "Failed to connect: {}" [AExn SerialException] ;;; ret false)%io)
  | Raise e => (self, throw e)
  end.

(** [if self.serial_conn and self.is_connected]: a [Serial] object is
    truthy, [None] is not. *)
Definition disconnect (self : controller) : controller * io unit :=
  match serial_conn self with
  | Some conn =>
      if is_connected self then
        (set_conn self (Some (close conn)) false,
         (emit SerialClose ;;; log INFO "Disconnected from pump" [])%io)
      else (self, ret tt)
  | None => (self, ret tt)
  end.

(** The states a session can be in: built by [__init__], then any sequence
    of [connect] and [disconnect]; no other method assigns a field. *)
Inductive reachable : controller -> Prop :=
| reach_init (p : string) (b s : Z) : reachable (__init__ p b s)
| reach_connect (dev : device) (self : controller) :
    reachable self -> reachable (fst (connect dev self))
| reach_disconnect (self : controller) :
    reachable self -> reachable (fst (disconnect self)).

(** The session holds no open channel. *)
Definition released (self : controller) : Prop :=
  match serial_conn self with
  | Some conn => is_open conn = false
  | None => True
  end.

(** [if not register_addr]: a missing name gives [None], and an address of
    zero would be as falsy. *)
Definition lookup_register (register_name : string) : option Z :=
  match REGISTERS !! register_name with
  | Some addr => if addr =? 0 then None else Some addr
  | None => None
  end.

(** The [try] body hands back [Some v] where it returns [v] and [None]
    where control falls through to the final [return]. *)
Definition read_register (dev : device) (self : controller)
    (register_name : string) : io (option Z) :=
  if negb (is_connected self) then
    (log ERROR "Not connected to pump" [] ;;; ret None)%io
  else
    match lookup_register register_name with
    | None =>
        (log ERROR "Unknown register: {}" [AStr register_name] ;;; ret None)%io
    | Some register_addr =>
        (returned <-
           try_except
             (request <- lift (build_request (slave_id self) 3 register_addr None 1) ;;
              serial_write dev (serial_conn self) request ;;;
              log DEBUG "Sent Modbus read request for {}" [AStr register_name] ;;;
              emit (Sleep 50) ;;;
              response <- serial_read dev (serial_conn self) request 256 ;;
              match response with
              | _ :: _ =>
                  value <- parse_response response ;;
                  log DEBUG "Read {}: {}" [AStr register_name; AOptInt value] ;;;
                  ret (Some value)
              | [] => ret None
              end)
             (fun e =>
                log ERROR "Error reading register: {}" [AExn e] ;;; ret None) ;;
         match returned with
         | Some value => ret value
         | None => ret None
         end)%io
    end.

Definition write_register (dev : device) (self : controller)
    (register_name : string) (value : Z) : io bool :=
  if negb (is_connected self) then
    (log ERROR "Not connected to pump" [] ;;; ret false)%io
  else
    match lookup_register register_name with
    | None =>
        (log ERROR "Unknown register: {}" [AStr register_name] ;;; ret false)%io
    | Some register_addr =>
        (returned <-
           try_except
             (request <-
                lift (build_request (slave_id self) 6 register_addr (Some value) 1) ;;
              serial_write dev (serial_conn self) request ;;;
              log DEBUG "Sent Modbus write request for {}: {}"
                [AStr register_name; AInt value] ;;;
              emit (Sleep 50) ;;;
              response <- serial_read dev (serial_conn self) request 256 ;;
              match response with
              | _ :: _ =>
                  result <- parse_response response ;;
                  match result with
                  | Some _ =>
                      log INFO "Written {}: {}" [AStr register_name; AInt value] ;;;
                      ret (Some true)
                  | None => ret None
                  end
              | [] => ret None
              end)
             (fun e =>
                log ERROR "Error writing register: {}" [AExn e] ;;; ret None) ;;
         match returned with
         | Some b => ret b
         | None => ret false
         end)%io
    end.

Definition mode_values (mode : PumpMode) : option Z :=
  match mode with
  | INFUSION => Some 1
  | WITHDRAWAL => Some 2
  | INFUSION_WITHDRAWAL => Some 3
  | WITHDRAWAL_INFUSION => Some 4
  end.

Definition set_mode (dev : device) (self : controller) (mode : PumpMode)
  : io bool :=
  match mode_values mode with
  | Some value =>
      if negb (value =? 0) then
        (success <- write_register dev self "MODE" value ;;
         (if success : bool
          then log INFO "Set mode to {}" [AStr (PumpMode_name mode)]
          else ret tt) ;;;
         ret success)%io
      else ret false
  | None => ret false
  end.

Definition set_flow_rate (dev : device) (self : controller)
    (rate_ul_min : spec_float) : io bool :=
  if negb (between (float_lit 2 3) rate_ul_min (float_of_Z 165871)) then
    (log ERROR "Flow rate {} out of range (0.002-165871 μL/min)"
       [AFloat rate_ul_min] ;;;
     ret false)%io
  else
    (register_value <- lift (int_of_float (fmul rate_ul_min (float_of_Z 100))) ;;
     success <- write_register dev self "FLOW_RATE" register_value ;;
     (if success : bool
      then log INFO "Set flow rate to {} μL/min" [AFloat rate_ul_min]
      else ret tt) ;;;
     ret success)%io.

Definition set_linear_speed (dev : device) (self : controller)
    (speed_um_min : spec_float) : io bool :=
  if negb (between (float_of_Z 1) speed_um_min (float_of_Z 132000)) then
    (log ERROR "Linear speed {} out of range (1-132000 μm/min)"
       [AFloat speed_um_min] ;;;
     ret false)%io
  else
    (register_value <- lift (int_of_float speed_um_min) ;;
     success <- write_register dev self "LINEAR_SPEED" register_value ;;
     (if success : bool
      then log INFO "Set linear speed to {} μm/min" [AFloat speed_um_min]
      else ret tt) ;;;
     ret success)%io.

Definition start (dev : device) (self : controller) : io bool :=
  (success <- write_register dev self "START_STOP" 1 ;;
   (if success : bool then log INFO "Pump started" [] else ret tt) ;;;
   ret success)%io.

Definition stop (dev : device) (self : controller) : io bool :=
  (success <- write_register dev self "START_STOP" 0 ;;
   (if success : bool then log INFO "Pump stopped" [] else ret tt) ;;;
   ret success)%io.

Definition get_status (dev : device) (self : controller) : io (option Z) :=
  read_register dev self "STATUS".

Definition save_to_memory (self : controller) (slot : Z) : io bool :=
  if negb ((1 <=? slot) && (slot <=? 60)) then
    (log ERROR "Invalid memory slot: {} (must be 1-60)" [AInt slot] ;;;
     ret false)%io
  else
    (log INFO "Saving to memory slot {}" [AInt slot] ;;; ret true)%io.

Definition load_from_memory (self : controller) (slot : Z) : io bool :=
  if negb ((1 <=? slot) && (slot <=? 60)) then
    (log ERROR "Invalid memory slot: {} (must be 1-60)" [AInt slot] ;;;
     ret false)%io
  else
    (log INFO "Loading from memory slot {}" [AInt slot] ;;; ret true)%io.

End ISPLab02ModbusController.

(** ** class ISPLab02Controller (command strings) *)

Module ISPLab02Controller.

Record controller := {
  port : string;
  baudrate : Z;
  serial_conn : option Serial;
  is_connected : bool
}.

Definition __init__ (port : string) (baudrate : Z) : controller :=
  {| port := port; baudrate := baudrate;
     serial_conn := None; is_connected := false |}.

Definition set_conn (self : controller) (conn : option Serial) (flag : bool)
  : controller :=
  {| port := port self; baudrate := baudrate self;
     serial_conn := conn; is_connected := flag |}.

Definition connect (dev : device) (self : controller) : controller * io bool :=
  match dev_open dev with
  | Ok _ =>
      (set_conn self (Some {| is_open := true |}) true,
       (emit SerialOpen ;;;
        finalize (serial_conn self) ;;;
        log INFO "Connected to pump on {}" [AStr (port self)] ;;;
        ret true)%io)
  | Raise SerialException =>
      (self,
       (log ERROR "Failed to connect: {}" [AExn SerialException] ;;; ret false)%io)
  | Raise e => (self, throw e)
  end.

(** [if self.serial_conn and self.is_connected]: a [Serial] object is
    truthy, [None] is not. *)
Definition disconnect (self : controller) : controller * io unit :=
  match serial_conn self with
  | Some conn =>
      if is_connected self then
        (set_conn self (Some (close conn)) false,
         (emit SerialClose ;;; log INFO "Disconnected from pump" [])%io)
      else (self, ret tt)
  | None => (self, ret tt)
  end.

(** The states a session can be in: built by [__init__], then any sequence
    of [connect] and [disconnect]; no other method assigns a field. *)
Inductive reachable : controller -> Prop :=
| reach_init (p : string) (b : Z) : reachable (__init__ p b)
| reach_connect (dev : device) (self : controller) :
    reachable self -> reachable (fst (connect dev self))
| reach_disconnect (self : controller) :
    reachable self -> reachable (fst (disconnect self)).

(** The session holds no open channel. *)
Definition released (self : controller) : Prop :=
  match serial_conn self with
  | Some conn => is_open conn = false
  | None => True
  end.

(** In [self.serial_conn.write(command.encode('ascii'))] the attribute
    lookup comes first, then the encoding, then the call. *)
Definition send_command (dev : device) (self : controller) (command : string)
  : io (option string) :=
  if negb (is_connected self) then
    (log ERROR "Not connected to pump" [] ;;; ret None)%io
  else
    try_except
      (let command :=
         if negb (endswith command CRLF) then command +:+ CRLF else command in
       serial_method (serial_conn self) ;;;
       request <- lift (encode_ascii command) ;;
       serial_write dev (serial_conn self) request ;;;
       log DEBUG "Sent: {}" [AStr (strip command)] ;;;
       emit (Sleep 100) ;;;
       line <- serial_readline dev (serial_conn self) request ;;
       text <- lift (decode_ascii line) ;;
       let response := strip text in
       log DEBUG "Received: {}" [AStr response] ;;;
       ret (Some response))%io
      (fun e => log ERROR "Error sending command: {}" [AExn e] ;;; ret None)%io.

Section Formatting.

(** Python's [format(x, '.3f')]. *)
Variable format_3f : spec_float -> string.

Definition set_flow_rate (dev : device) (self : controller)
    (rate_ul_min : spec_float) : io bool :=
  if negb (between (float_lit 1 3) rate_ul_min (float_of_Z 127000)) then
    (log ERROR "Flow rate {} out of range (0.001-127000 μL/min)"
       [AFloat rate_ul_min] ;;;
     ret false)%io
  else
    (let command := "RATE:" +:+ format_3f rate_ul_min in
     response <- send_command dev self command ;;
     match response with
     | Some (String _ _) =>
         log INFO "Set flow rate to {} μL/min" [AFloat rate_ul_min] ;;;
         ret true
     | _ => ret false
     end)%io.

Definition set_volume (dev : device) (self : controller)
    (volume_ul : spec_float) : io bool :=
  (let command := "VOL:" +:+ format_3f volume_ul in
   response <- send_command dev self command ;;
   match response with
   | Some (String _ _) =>
       log INFO "Set volume to {} μL" [AFloat volume_ul] ;;;
       ret true
   | _ => ret false
   end)%io.

Definition set_syringe_diameter (dev : device) (self : controller)
    (diameter_mm : spec_float) : io bool :=
  (let command := "DIA:" +:+ format_3f diameter_mm in
   response <- send_command dev self command ;;
   match response with
   | Some (String _ _) =>
       log INFO "Set syringe diameter to {} mm" [AFloat diameter_mm] ;;;
       ret true
   | _ => ret false
   end)%io.

Definition modify_flow_rate_online (dev : device) (self : controller)
    (new_rate_ul_min : spec_float) : io bool :=
  (let command := "RATE_ONLINE:" +:+ format_3f new_rate_ul_min in
   response <- send_command dev self command ;;
   match response with
   | Some (String _ _) =>
       log INFO "Modified flow rate online to {} μL/min" [AFloat new_rate_ul_min] ;;;
       ret true
   | _ => ret false
   end)%io.

End Formatting.

Definition mode_commands (mode : PumpMode) : option string :=
  match mode with
  | INFUSION => Some "MODE:INF"
  | WITHDRAWAL => Some "MODE:WDR"
  | INFUSION_WITHDRAWAL => Some "MODE:I/W"
  | WITHDRAWAL_INFUSION => Some "MODE:W/I"
  end.

Definition set_mode (dev : device) (self : controller) (mode : PumpMode)
  : io bool :=
  match mode_commands mode with
  | Some (String _ _ as command) =>
      (response <- send_command dev self command ;;
       match response with
       | Some (String _ _) =>
           log INFO "Set mode to {}" [AStr (PumpMode_name mode)] ;;;
           ret true
       | _ => ret false
       end)%io
  | _ => ret false
  end.

Definition start (dev : device) (self : controller) : io bool :=
  (response <- send_command dev self "START" ;;
   match response with
   | Some (String _ _) => log INFO "Pump started" [] ;;; ret true
   | _ => ret false
   end)%io.

Definition stop (dev : device) (self : controller) : io bool :=
  (response <- send_command dev self "STOP" ;;
   match response with
   | Some (String _ _) => log INFO "Pump stopped" [] ;;; ret true
   | _ => ret false
   end)%io.

Definition get_status (dev : device) (self : controller) : io (option string) :=
  send_command dev self "STATUS".

End ISPLab02Controller.

Module Modbus := ISPLab02ModbusController.
Module Cmd := ISPLab02Controller.

(** The flag and the channel agree in every reachable state. *)
Definition modbus_consistent (self : Modbus.controller) : Prop :=
  match Modbus.serial_conn self with
  | Some conn => is_open conn = Modbus.is_connected self
  | None => Modbus.is_connected self = false
  end.

Definition cmd_consistent (self : Cmd.controller) : Prop :=
  match Cmd.serial_conn self with
  | Some conn => is_open conn = Cmd.is_connected self
  | None => Cmd.is_connected self = false
  end.

(** The names of the register table. *)
Definition register_names : list string :=
  ["MODE"; "FLOW_RATE"; "VOLUME"; "SYRINGE_DIA"; "START_STOP"; "STATUS";
   "DIRECTION"; "LINEAR_SPEED"].

(** A session as [connect] leaves it. *)
Definition connected_session (slave_id : Z) : Modbus.controller :=
  {| Modbus.port := "/dev/tty.usbserial"; Modbus.baudrate := 9600;
     Modbus.slave_id := slave_id;
     Modbus.serial_conn := Some {| is_open := true |};
     Modbus.is_connected := true |}.

(** A device that accepts every write and answers each request with
    [reply]. *)
Definition replying (reply : bytes -> bytes) : device :=
  {| dev_open := Ok tt;
     dev_write := fun _ => Ok tt;
     dev_pending := fun request => Ok (reply request) |}.

(** ** The callers: [custom_sequence] *)

(** [l[i]] for a Python list: a negative index counts from the end. *)
Definition py_getitem {A : Type} (l : list A) (i : Z) : result A :=
  let n := Z.of_nat (length l) in
  let j := if i <? 0 then i + n else i in
  if (0 <=? j) && (j <? n) then
    match l !! Z.to_nat j with
    | Some x => Ok x
    | None => Raise IndexError
    end
  else Raise IndexError.

(** The list [modes] of [custom_sequence] and its [modes[mode_choice - 1]],
    the same in both files. *)
Definition modes : list PumpMode :=
  [INFUSION; WITHDRAWAL; INFUSION_WITHDRAWAL; WITHDRAWAL_INFUSION].

Definition chosen_mode (mode_choice : Z) : result PumpMode :=
  py_getitem modes (mode_choice - 1).

(** ** Vocabulary of the statements *)

(** The command as [send_command] puts it on the wire. *)
Definition terminated (command : string) : string :=
  if negb (endswith command CRLF) then command +:+ CRLF else command.

(** A session of the command-string driver as [connect] leaves it. *)
Definition cmd_connected_session : Cmd.controller :=
  {| Cmd.port := "/dev/tty.usbserial"; Cmd.baudrate := 9600;
     Cmd.serial_conn := Some {| is_open := true |};
     Cmd.is_connected := true |}.

(** The fields a frame is made of, by function code. *)
Definition request_fields (slave_id function_code register_addr : Z)
    (value : option Z) (count : Z) (data : bytes) : Prop :=
  (function_code = 3 /\ is_word16 count
   /\ data = [slave_id; 3; register_addr / 256; register_addr mod 256;
              count / 256; count mod 256])
  \/ (function_code = 6 /\ exists v, value = Some v /\ is_word16 v
      /\ data = [slave_id; 6; register_addr / 256; register_addr mod 256;
                 v / 256; v mod 256])
  \/ (function_code = 16 /\ exists v, value = Some v /\ is_word16 v
      /\ data = [slave_id; 16; register_addr / 256; register_addr mod 256;
                 0; 1; 2; v / 256; v mod 256]).

(** ** Arithmetic of the CRC register *)

Section CrcWord.

Lemma lxor_below (n a b : Z) :
  0 <= n -> 0 <= a < 2 ^ n -> 0 <= b < 2 ^ n -> 0 <= Z.lxor a b < 2 ^ n.
Proof.
  intros Hn Ha Hb. split.
  - apply Z.lxor_nonneg. lia.
  - destruct (Z.eq_dec (Z.lxor a b) 0) as [->|Hnz]; [lia|].
    assert (0 < Z.lxor a b) by (pose proof (proj2 (Z.lxor_nonneg a b)); lia).
    assert (0 < n).
    { destruct (Z.eq_dec n 0) as [->|]; [|lia].
      assert (a = 0) as -> by (simpl in Ha; lia).
      assert (b = 0) as -> by (simpl in Hb; lia).
      contradiction. }
    apply Z.log2_lt_pow2; [lia|].
    eapply Z.le_lt_trans; [apply Z.log2_lxor; lia|].
    apply Z.max_lub_lt.
    + destruct (Z.eq_dec a 0) as [->|]; [simpl; lia|].
      apply Z.log2_lt_pow2; lia.
    + destruct (Z.eq_dec b 0) as [->|]; [simpl; lia|].
      apply Z.log2_lt_pow2; lia.
Qed.

Lemma shiftr1_half (c : Z) : Z.shiftr c 1 = c / 2.
Proof. rewrite Z.shiftr_div_pow2 by lia. reflexivity. Qed.

Lemma land1_parity (c : Z) : Z.land c 1 = c mod 2.
Proof. change 1 with (Z.ones 1). rewrite Z.land_ones by lia. reflexivity. Qed.

Lemma crc_shift_word16 (c : Z) : is_word16 c -> is_word16 (crc_shift c).
Proof.
  unfold is_word16, crc_shift. intros Hc.
  assert (Hh : 0 <= Z.shiftr c 1 < 2 ^ 16).
  { rewrite shiftr1_half. change (2 ^ 16) with 65536.
    split; [apply Z.div_pos; lia | apply Z.div_lt_upper_bound; lia]. }
  destruct (negb _).
  - change 65536 with (2 ^ 16). apply lxor_below; [lia | exact Hh | simpl; lia].
  - change (2 ^ 16) with 65536 in Hh. exact Hh.
Qed.

(** The top bit of the result records the branch taken: the shifted value
    has bit 15 clear and 0xA001 has it set. *)
Lemma crc_shift_top_bit (c : Z) :
  is_word16 c -> Z.testbit (crc_shift c) 15 = negb (Z.land c 1 =? 0).
Proof.
  unfold is_word16, crc_shift. intros Hc.
  assert (Hb : Z.testbit (Z.shiftr c 1) 15 = false).
  { rewrite Z.shiftr_spec by lia. change (15 + 1) with 16.
    destruct (Z.eq_dec c 0) as [->|]; [reflexivity|].
    apply Z.bits_above_log2; [lia|].
    apply Z.log2_lt_pow2; [lia|]. change (2 ^ 16) with 65536. lia. }
  destruct (negb _).
  - rewrite Z.lxor_spec, Hb. reflexivity.
  - exact Hb.
Qed.

Lemma crc_shift_inj (c d : Z) :
  is_word16 c -> is_word16 d -> crc_shift c = crc_shift d -> c = d.
Proof.
  intros Hc Hd Heq.
  pose proof (crc_shift_top_bit c Hc) as Tc.
  pose proof (crc_shift_top_bit d Hd) as Td.
  rewrite Heq, Td in Tc.
  assert (Hhalf : Z.shiftr c 1 = Z.shiftr d 1).
  { unfold crc_shift in Heq. rewrite <- Tc in Heq.
    destruct (negb (Z.land d 1 =? 0)).
    - apply (f_equal (fun x => Z.lxor x 0xA001)) in Heq.
      rewrite !Z.lxor_assoc, !Z.lxor_nilpotent, !Z.lxor_0_r in Heq. exact Heq.
    - exact Heq. }
  assert (Hpar : c mod 2 = d mod 2).
  { rewrite <- !land1_parity.
    destruct (Z.land c 1 =? 0) eqn:E1, (Z.land d 1 =? 0) eqn:E2;
      try discriminate.
    - apply Z.eqb_eq in E1, E2. congruence.
    - apply Z.eqb_neq in E1, E2. rewrite ?land1_parity in *.
      pose proof (Z.mod_pos_bound c 2 ltac:(lia)).
      pose proof (Z.mod_pos_bound d 2 ltac:(lia)). lia. }
  rewrite !shiftr1_half in Hhalf.
  rewrite (Z.div_mod c 2), (Z.div_mod d 2) by lia. congruence.
Qed.

Lemma crc_rounds_word16 (n : nat) (c : Z) :
  is_word16 c -> is_word16 (Nat.iter n crc_shift c).
Proof.
  intros Hc. induction n as [|n IH]; simpl; [exact Hc|].
  apply crc_shift_word16, IH.
Qed.

Lemma crc_rounds_inj (n : nat) (c d : Z) :
  is_word16 c -> is_word16 d ->
  Nat.iter n crc_shift c = Nat.iter n crc_shift d -> c = d.
Proof.
  intros Hc Hd. induction n as [|n IH]; simpl; [auto|].
  intros Heq. apply IH. apply crc_shift_inj; auto using crc_rounds_word16.
Qed.

Lemma lxor_byte_word16 (c b : Z) :
  is_word16 c -> is_byte b -> is_word16 (Z.lxor c b).
Proof.
  unfold is_word16, is_byte. intros Hc Hb.
  change 65536 with (2 ^ 16). apply lxor_below; simpl; lia.
Qed.

Lemma crc_byte_word16 (c b : Z) :
  is_word16 c -> is_byte b -> is_word16 (crc_byte c b).
Proof.
  intros Hc Hb. apply crc_rounds_word16, lxor_byte_word16; assumption.
Qed.

(** For a fixed byte the update is injective in the register ... *)
Lemma crc_byte_inj_state (c d b : Z) :
  is_word16 c -> is_word16 d -> is_byte b ->
  crc_byte c b = crc_byte d b -> c = d.
Proof.
  intros Hc Hd Hb Heq.
  apply crc_rounds_inj in Heq; auto using lxor_byte_word16.
  apply (f_equal (fun x => Z.lxor x b)) in Heq.
  rewrite !Z.lxor_assoc, !Z.lxor_nilpotent, !Z.lxor_0_r in Heq. exact Heq.
Qed.

(** ... and for a fixed register it is injective in the byte. *)
Lemma crc_byte_inj_byte (c b b' : Z) :
  is_word16 c -> is_byte b -> is_byte b' ->
  crc_byte c b = crc_byte c b' -> b = b'.
Proof.
  intros Hc Hb Hb' Heq.
  apply crc_rounds_inj in Heq; auto using lxor_byte_word16.
  apply (f_equal (Z.lxor c)) in Heq.
  rewrite <- !Z.lxor_assoc, !Z.lxor_nilpotent, !Z.lxor_0_l in Heq. exact Heq.
Qed.

Lemma fold_crc_word16 (data : bytes) (c : Z) :
  is_word16 c -> wf_bytes data -> is_word16 (fold_left crc_byte data c).
Proof.
  intros Hc Hd. revert c Hc.
  induction Hd as [|b data Hb _ IH]; intros c Hc; simpl; [exact Hc|].
  apply IH, crc_byte_word16; assumption.
Qed.

Lemma fold_crc_inj (data : bytes) (c d : Z) :
  is_word16 c -> is_word16 d -> wf_bytes data ->
  fold_left crc_byte data c = fold_left crc_byte data d -> c = d.
Proof.
  intros Hc Hd Hw. revert c d Hc Hd.
  induction Hw as [|b data Hb _ IH]; intros c d Hc Hd; simpl; [auto|].
  intros Heq. apply IH in Heq; auto using crc_byte_word16.
  eapply crc_byte_inj_state; eauto.
Qed.

Lemma seed_word16 : is_word16 0xFFFF.
Proof. unfold is_word16. lia. Qed.

Lemma calculate_crc16_word16 (data : bytes) :
  wf_bytes data -> is_word16 (calculate_crc16 data).
Proof. apply fold_crc_word16, seed_word16. Qed.

(** Replacing one byte by a different byte changes the checksum. *)
Lemma calculate_crc16_insert_neq (data : bytes) (i : nat) (b b' : Z) :
  wf_bytes data -> data !! i = Some b -> is_byte b' -> b' <> b ->
  calculate_crc16 (<[i:=b']> data) <> calculate_crc16 data.
Proof.
  unfold calculate_crc16. generalize seed_word16. generalize 0xFFFF.
  intros c Hc Hw. revert c Hc i.
  induction Hw as [|x data Hx Hw IH]; intros c Hc i Hi Hb' Hne; [discriminate|].
  destruct i as [|i]; simpl in *.
  - injection Hi as ->. intros Heq.
    apply fold_crc_inj in Heq; auto using crc_byte_word16.
    apply crc_byte_inj_byte in Heq; auto.
  - apply IH; auto using crc_byte_word16.
Qed.

End CrcWord.

(** ** The frame codec *)

Section Codec.

Lemma hi_byte_range (x : Z) : is_word16 x -> is_byte (x / 256).
Proof. unfold is_word16, is_byte. intros. Z.div_mod_to_equations. lia. Qed.

Lemma lo_byte_range (x : Z) : is_byte (x mod 256).
Proof. unfold is_byte. Z.div_mod_to_equations. lia. Qed.

Lemma pack_field_B (e : endian) (x : Z) :
  is_byte x -> pack_field e (B (Some x)) = Ok [x].
Proof.
  unfold is_byte. intros Hx. simpl.
  replace (0 <=? x) with true by lia. replace (x <? 256) with true by lia.
  reflexivity.
Qed.

Lemma pack_field_H_be (x : Z) :
  is_word16 x -> pack_field BigEndian (H (Some x)) = Ok [x / 256; x mod 256].
Proof.
  unfold is_word16. intros Hx. simpl.
  replace (0 <=? x) with true by lia. replace (x <? 65536) with true by lia.
  reflexivity.
Qed.

Lemma pack_field_H_le (x : Z) :
  is_word16 x -> pack_field LittleEndian (H (Some x)) = Ok [x mod 256; x / 256].
Proof.
  unfold is_word16. intros Hx. simpl.
  replace (0 <=? x) with true by lia. replace (x <? 65536) with true by lia.
  reflexivity.
Qed.

Ltac wf_frame :=
  unfold wf_bytes;
  repeat (apply Forall_cons_2;
          [first [ assumption
                 | apply hi_byte_range; assumption
                 | apply lo_byte_range
                 | unfold is_byte; lia ] |]);
  apply Forall_nil_2.

Lemma crc_tail (data : bytes) :
  wf_bytes data ->
  struct_pack LittleEndian [H (Some (calculate_crc16 data))]
  = Ok [calculate_crc16 data mod 256; calculate_crc16 data / 256].
Proof.
  intros Hw. cbn [struct_pack].
  rewrite pack_field_H_le by (apply calculate_crc16_word16, Hw).
  reflexivity.
Qed.

Lemma build_request_3 (slave_id register_addr count : Z) (value : option Z) :
  is_byte slave_id -> is_word16 register_addr -> is_word16 count ->
  build_request slave_id 3 register_addr value count
  = Ok (with_crc [slave_id; 3; register_addr / 256; register_addr mod 256;
                  count / 256; count mod 256]).
Proof.
  intros Hs Ha Hc. unfold build_request. cbn [Z.eqb Pos.eqb struct_pack].
  rewrite !pack_field_B, !pack_field_H_be by (assumption || (unfold is_byte; lia)).
  cbn [rbind app]. rewrite pack_field_H_le; [reflexivity|].
  apply calculate_crc16_word16. wf_frame.
Qed.

Lemma build_request_6 (slave_id register_addr value count : Z) :
  is_byte slave_id -> is_word16 register_addr -> is_word16 value ->
  build_request slave_id 6 register_addr (Some value) count
  = Ok (with_crc [slave_id; 6; register_addr / 256; register_addr mod 256;
                  value / 256; value mod 256]).
Proof.
  intros Hs Ha Hv. unfold build_request. cbn [Z.eqb Pos.eqb struct_pack].
  rewrite !pack_field_B, !pack_field_H_be by (assumption || (unfold is_byte; lia)).
  cbn [rbind app]. rewrite pack_field_H_le; [reflexivity|].
  apply calculate_crc16_word16. wf_frame.
Qed.

Lemma build_request_16 (slave_id register_addr value count : Z) :
  is_byte slave_id -> is_word16 register_addr -> is_word16 value ->
  build_request slave_id 16 register_addr (Some value) count
  = Ok (with_crc [slave_id; 16; register_addr / 256; register_addr mod 256;
                  0; 1; 2; value / 256; value mod 256]).
Proof.
  intros Hs Ha Hv. unfold build_request. cbn [Z.eqb Pos.eqb struct_pack].
  rewrite !pack_field_B by (assumption || (unfold is_byte; lia)).
  rewrite !pack_field_H_be by (assumption || (unfold is_word16; lia)).
  change (1 / 256) with 0. change (1 mod 256) with 1.
  cbn [rbind app]. rewrite pack_field_H_le; [reflexivity|].
  apply calculate_crc16_word16. wf_frame.
Qed.

Lemma build_request_unsupported (slave_id function_code register_addr count : Z)
    (value : option Z) :
  function_code <> 3 -> function_code <> 6 -> function_code <> 16 ->
  build_request slave_id function_code register_addr value count = Raise ValueError.
Proof.
  intros H3 H6 H16. unfold build_request.
  apply Z.eqb_neq in H3, H6, H16. rewrite H3, H6, H16. reflexivity.
Qed.

Example status_read_frame :
  build_request 1 3 0x0050 None 1
  = Ok [0x01; 0x03; 0x00; 0x50; 0x00; 0x01; 0x84; 0x1B].
Proof. reflexivity. Qed.

Example start_write_frame :
  build_request 1 6 0x0040 (Some 1) 1
  = Ok [0x01; 0x06; 0x00; 0x40; 0x00; 0x01; 0x49; 0xDE].
Proof. reflexivity. Qed.

(** Arguments wider than their field are refused by [struct.pack]. *)
Example oversized_arguments :
  build_request 300 3 0x0050 None 1 = Raise StructError
  /\ build_request 1 3 0x0050 None 70000 = Raise StructError
  /\ build_request 1 6 0x0040 None 1 = Raise StructError.
Proof. repeat split; reflexivity. Qed.

(** C1: for a one-byte slave id and 16-bit address, value and count,
    [build_request] lays out function 3 as slave, 0x03, address (big-endian),
    count (big-endian); function 6 as slave, 0x06, address, value; function
    16 as slave, 0x10, address, 0x00 0x01, 0x02, value; each followed by the
    CRC16 of those bytes, low byte first.  Any other function code raises
    [ValueError].  The STATUS read request of slave 1 is 01 03 00 50 00 01
    and the START_STOP write of 1 is 01 06 00 40 00 01, each followed by its
    CRC. *)
Theorem build_request_frames (slave_id register_addr value count : Z) :
  is_byte slave_id -> is_word16 register_addr ->
  is_word16 value -> is_word16 count ->
  (forall v : option Z,
     build_request slave_id 3 register_addr v count
     = Ok ([slave_id; 0x03; register_addr / 256; register_addr mod 256;
            count / 256; count mod 256]
           ++ [calculate_crc16 [slave_id; 0x03; register_addr / 256;
                                register_addr mod 256; count / 256;
                                count mod 256] mod 256;
               calculate_crc16 [slave_id; 0x03; register_addr / 256;
                                register_addr mod 256; count / 256;
                                count mod 256] / 256]))
  /\ build_request slave_id 6 register_addr (Some value) count
     = Ok ([slave_id; 0x06; register_addr / 256; register_addr mod 256;
            value / 256; value mod 256]
           ++ [calculate_crc16 [slave_id; 0x06; register_addr / 256;
                                register_addr mod 256; value / 256;
                                value mod 256] mod 256;
               calculate_crc16 [slave_id; 0x06; register_addr / 256;
                                register_addr mod 256; value / 256;
                                value mod 256] / 256])
  /\ build_request slave_id 16 register_addr (Some value) count
     = Ok ([slave_id; 0x10; register_addr / 256; register_addr mod 256;
            0x00; 0x01; 0x02; value / 256; value mod 256]
           ++ [calculate_crc16 [slave_id; 0x10; register_addr / 256;
                                register_addr mod 256; 0x00; 0x01; 0x02;
                                value / 256; value mod 256] mod 256;
               calculate_crc16 [slave_id; 0x10; register_addr / 256;
                                register_addr mod 256; 0x00; 0x01; 0x02;
                                value / 256; value mod 256] / 256])
  /\ (forall (function_code : Z) (v : option Z),
        function_code <> 3 -> function_code <> 6 -> function_code <> 16 ->
        build_request slave_id function_code register_addr v count
        = Raise ValueError)
  /\ build_request 1 3 0x0050 None 1
     = Ok ([0x01; 0x03; 0x00; 0x50; 0x00; 0x01]
           ++ [calculate_crc16 [0x01; 0x03; 0x00; 0x50; 0x00; 0x01] mod 256;
               calculate_crc16 [0x01; 0x03; 0x00; 0x50; 0x00; 0x01] / 256])
  /\ build_request 1 6 0x0040 (Some 1) 1
     = Ok ([0x01; 0x06; 0x00; 0x40; 0x00; 0x01]
           ++ [calculate_crc16 [0x01; 0x06; 0x00; 0x40; 0x00; 0x01] mod 256;
               calculate_crc16 [0x01; 0x06; 0x00; 0x40; 0x00; 0x01] / 256]).
Proof.
  intros Hs Ha Hv Hc. repeat split.
  - intros v. apply build_request_3; assumption.
  - apply build_request_6; assumption.
  - apply build_request_16; assumption.
  - intros fc v. apply build_request_unsupported.
Qed.

Lemma build_request_frames_witness :
  is_byte 1 /\ is_word16 0x0010 /\ is_word16 10000 /\ is_word16 1 /\
  build_request 1 6 0x0010 (Some 10000) 1
  = Ok [0x01; 0x06; 0x00; 0x10; 0x27; 0x10; 0x92; 0x33].
Proof.
  assert (Hb : is_byte 1) by (unfold is_byte; lia).
  assert (Ha : is_word16 0x0010) by (unfold is_word16; lia).
  assert (Hv : is_word16 10000) by (unfold is_word16; lia).
  assert (Hc : is_word16 1) by (unfold is_word16; lia).
  repeat (split; [assumption|]).
  destruct (build_request_frames 1 0x0010 10000 1 Hb Ha Hv Hc)
    as (_ & H6 & _).
  rewrite H6. reflexivity.
Defined.

(** *** Slices that are long enough hold exactly the bytes asked for *)

Lemma take2_drop (lo : nat) (l : bytes) :
  (lo + 2 <= length l)%nat ->
  take 2 (drop lo l) = [nth lo l 0; nth (S lo) l 0].
Proof.
  revert l. induction lo as [|lo IH]; intros l Hlen.
  - destruct l as [|a [|b r]]; simpl in Hlen; try lia. reflexivity.
  - destruct l as [|a r]; simpl in Hlen; [lia|].
    simpl. apply IH. lia.
Qed.

Lemma slice_last_two (l : bytes) :
  (2 <= length l)%nat ->
  slice_last 2 l = [nth (length l - 2) l 0; nth (S (length l - 2)) l 0].
Proof.
  intros Hlen. unfold slice_last.
  rewrite <- take2_drop by lia.
  rewrite take_ge; [reflexivity|]. rewrite length_drop. lia.
Qed.

Lemma index_nth (l : bytes) (i : nat) :
  (i < length l)%nat -> index l i = Ok (nth i l 0).
Proof.
  intros Hi. unfold index. rewrite nth_lookup.
  destruct (l !! i) as [b|] eqn:E; [reflexivity|].
  apply lookup_ge_None in E. lia.
Qed.

Lemma nth_is_byte (l : bytes) (i : nat) :
  wf_bytes l -> is_byte (nth i l 0).
Proof.
  intros Hw. rewrite nth_lookup. destruct (l !! i) as [b|] eqn:E; simpl.
  - eapply Forall_lookup_1; eauto.
  - unfold is_byte. lia.
Qed.

Lemma be16_at_word16 (k : nat) (l : bytes) : wf_bytes l -> is_word16 (be16_at k l).
Proof.
  intros Hw. unfold be16_at, is_word16.
  pose proof (nth_is_byte l k Hw) as Ha.
  pose proof (nth_is_byte l (S k) Hw) as Hb.
  unfold is_byte in *. lia.
Qed.

(** [parse_response] never raises, and its value is the one the
    specification describes. *)
Lemma parse_response_refines (response : bytes) :
  value_of (parse_response response) = Ok (parse_response_spec response).
Proof.
  unfold parse_response, parse_response_spec.
  destruct (length response <? 5)%nat eqn:Hlen; [reflexivity|].
  apply Nat.ltb_ge in Hlen.
  rewrite slice_last_two by lia. unfold slice_but_last.
  cbn [struct_unpack_H lift bind].
  fold (le16_at (length response - 2) response).
  destruct (negb _) eqn:Hcrc; [reflexivity|].
  rewrite index_nth by lia. cbn [lift bind].
  destruct (nth 1 response 0 =? 3) eqn:H3.
  - cbn [andb]. destruct (7 <=? length response)%nat eqn:H7.
    + apply Nat.leb_le in H7. unfold slice. change (5 - 3)%nat with 2%nat.
      rewrite take2_drop by lia. reflexivity.
    + apply Z.eqb_eq in H3. rewrite H3. reflexivity.
  - cbn [andb]. destruct (nth 1 response 0 =? 6) eqn:H6; [|reflexivity].
    cbn [andb]. destruct (8 <=? length response)%nat eqn:H8; [|reflexivity].
    apply Nat.leb_le in H8. unfold slice. change (6 - 4)%nat with 2%nat.
    rewrite take2_drop by lia. reflexivity.
Qed.

(** The only record [parse_response] can log is the CRC failure. *)
Lemma parse_response_trace (response : bytes) :
  trace_of (parse_response response) = []
  \/ trace_of (parse_response response) = [Log ERROR "CRC check failed" []].
Proof.
  unfold parse_response.
  destruct (length response <? 5)%nat eqn:Hlen; [left; reflexivity|].
  apply Nat.ltb_ge in Hlen.
  rewrite slice_last_two by lia.
  cbn [struct_unpack_H lift bind].
  destruct (negb _); [right; reflexivity|].
  rewrite index_nth by lia. cbn [lift bind].
  destruct (nth 1 response 0 =? 3).
  - destruct (7 <=? length response)%nat eqn:H7; [|left; reflexivity].
    apply Nat.leb_le in H7. unfold slice. change (5 - 3)%nat with 2%nat.
    rewrite take2_drop by lia. left; reflexivity.
  - destruct (nth 1 response 0 =? 6); [|left; reflexivity].
    destruct (8 <=? length response)%nat eqn:H8; [|left; reflexivity].
    apply Nat.leb_le in H8. unfold slice. change (6 - 4)%nat with 2%nat.
    rewrite take2_drop by lia. left; reflexivity.
Qed.

Lemma parse_response_spec_word16 (response : bytes) (v : Z) :
  wf_bytes response -> parse_response_spec response = Some v -> is_word16 v.
Proof.
  intros Hw. unfold parse_response_spec.
  repeat match goal with
         | |- context [if ?c then _ else _] => destruct c
         end; intros [= <-] || discriminate; apply be16_at_word16, Hw.
Qed.

(** C10: [parse_response] is total.  Whatever the bytes and their number,
    it returns a value below 65536 or no value and raises nothing: each
    slice handed to [struct.unpack] holds two bytes because of the length
    test before it.  Below seven bytes the answer is always no value. *)
Theorem parse_response_total (response : bytes) :
  wf_bytes response ->
  (exists o : option Z,
      value_of (parse_response response) = Ok o
      /\ forall v, o = Some v -> is_word16 v)
  /\ ((length response < 7)%nat ->
      value_of (parse_response response) = Ok None).
Proof.
  intros Hw. rewrite parse_response_refines. split.
  - exists (parse_response_spec response). split; [reflexivity|].
    intros v. apply parse_response_spec_word16, Hw.
  - intros Hlen. f_equal. unfold parse_response_spec.
    rewrite (proj2 (Nat.leb_gt 7 (length response))) by lia.
    rewrite (proj2 (Nat.leb_gt 8 (length response))) by lia.
    rewrite !andb_false_r.
    repeat match goal with
           | |- context [if ?c then _ else _] => destruct c
           end; reflexivity.
Qed.

Lemma parse_response_total_witness :
  wf_bytes [0x01; 0x03; 0x02; 0xA1; 0x31]
  /\ value_of (parse_response [0x01; 0x03; 0x02; 0xA1; 0x31]) = Ok None.
Proof.
  assert (Hw : wf_bytes [0x01; 0x03; 0x02; 0xA1; 0x31]) by wf_frame.
  split; [exact Hw|].
  apply (proj2 (parse_response_total [0x01; 0x03; 0x02; 0xA1; 0x31] Hw)).
  simpl. lia.
Defined.

(** *** The echo of a write request *)

Lemma word_join (c : Z) : c / 256 * 256 + c mod 256 = c.
Proof. Z.div_mod_to_equations. lia. Qed.

Lemma parse_with_crc_6 (s a b vh vl : Z) :
  wf_bytes [s; 6; a; b; vh; vl] ->
  parse_response (with_crc [s; 6; a; b; vh; vl]) = ret (Some (vh * 256 + vl)).
Proof.
  intros Hw. unfold with_crc, parse_response.
  pose proof (calculate_crc16_word16 _ Hw) as Hc.
  set (c := calculate_crc16 [s; 6; a; b; vh; vl]) in *.
  cbn [app length Nat.ltb Nat.leb slice_last slice_but_last Nat.sub drop take
       struct_unpack_H lift bind].
  fold c. rewrite word_join, Z.eqb_refl.
  reflexivity.
Qed.

(** C6: the frame [build_request] makes for function 6 parses back to the
    value it carries, as when the device echoes the write request. *)
Theorem write_request_roundtrip (slave_id register_addr value count : Z) :
  is_byte slave_id -> is_word16 register_addr -> is_word16 value ->
  exists frame : bytes,
    build_request slave_id 6 register_addr (Some value) count = Ok frame
    /\ parse_response frame = ret (Some value).
Proof.
  intros Hs Ha Hv. eexists. split.
  - apply build_request_6; assumption.
  - rewrite parse_with_crc_6 by wf_frame.
    rewrite word_join. reflexivity.
Qed.

Lemma write_request_roundtrip_witness :
  is_byte 1 /\ is_word16 0x0040 /\ is_word16 1 /\
  exists frame : bytes,
    build_request 1 6 0x0040 (Some 1) 1 = Ok frame
    /\ parse_response frame = ret (Some 1).
Proof.
  assert (Hb : is_byte 1) by (unfold is_byte; lia).
  assert (Ha : is_word16 0x0040) by (unfold is_word16; lia).
  assert (Hv : is_word16 1) by (unfold is_word16; lia).
  repeat (split; [assumption|]).
  exact (write_request_roundtrip 1 0x0040 1 1 Hb Ha Hv).
Defined.

(** *** Corrupted frames *)

Lemma crc_matches_inv (response : bytes) :
  crc_matches response = Ok true ->
  (2 <= length response)%nat
  /\ le16_at (length response - 2) response
     = calculate_crc16 (take (length response - 2) response).
Proof.
  unfold crc_matches. intros Hm.
  assert (Hlen : (2 <= length response)%nat).
  { destruct response as [|a [|b r]]; simpl in *; try discriminate; lia. }
  split; [exact Hlen|].
  rewrite slice_last_two in Hm by lia. cbn [struct_unpack_H rbind] in Hm.
  injection Hm as Hm. apply Z.eqb_eq in Hm. exact Hm.
Qed.

Lemma nth_insert_ne (l : bytes) (i j : nat) (x : Z) :
  i <> j -> nth j (<[i:=x]> l) 0 = nth j l 0.
Proof. intros Hne. rewrite !nth_lookup, list_lookup_insert_ne by exact Hne. reflexivity. Qed.

Lemma nth_insert_eq (l : bytes) (i : nat) (x : Z) :
  (i < length l)%nat -> nth i (<[i:=x]> l) 0 = x.
Proof. intros Hi. rewrite nth_lookup, list_lookup_insert_eq by exact Hi. reflexivity. Qed.

(** After one byte of a CRC-consistent frame is replaced by another, the
    trailing CRC no longer matches. *)
Lemma corrupted_crc_differs (response : bytes) (i : nat) (b' : Z) :
  wf_bytes response -> crc_matches response = Ok true ->
  (i < length response)%nat -> is_byte b' -> response !! i <> Some b' ->
  le16_at (length response - 2) (<[i:=b']> response)
  <> calculate_crc16 (take (length response - 2) (<[i:=b']> response)).
Proof.
  intros Hw Hm Hi Hb' Hne.
  destruct (crc_matches_inv response Hm) as [Hlen Hcrc].
  destruct (lookup_lt_is_Some_2 response i Hi) as [b Hb].
  assert (Hbb : b' <> b) by congruence.
  assert (Hbyte : is_byte b) by (eapply Forall_lookup_1; eauto).
  set (n := (length response - 2)%nat) in *.
  destruct (Nat.lt_ge_cases i n) as [Hlt|Hge].
  - rewrite take_insert_lt by exact Hlt.
    unfold le16_at. rewrite !nth_insert_ne by lia.
    fold (le16_at n response). rewrite Hcrc.
    intros Heq. symmetry in Heq. revert Heq.
    apply calculate_crc16_insert_neq with (b := b); auto.
    + apply Forall_take, Hw.
    + rewrite lookup_take_lt by exact Hlt. exact Hb.
  - rewrite take_insert_ge by exact Hge. rewrite <- Hcrc.
    unfold le16_at.
    pose proof (nth_lookup_Some response i 0 b Hb) as Hnth.
    unfold is_byte in *.
    destruct (Nat.eq_dec i n) as [->|Hin].
    + rewrite nth_insert_eq by lia. rewrite nth_insert_ne by lia. lia.
    + assert (i = S n) as -> by (unfold n in *; lia).
      rewrite nth_insert_eq by lia. rewrite nth_insert_ne by lia. lia.
Qed.

(** C2: [parse_response] decodes as specified: no value for fewer than 5
    bytes or a trailing little-endian CRC that differs from the CRC of the
    bytes before it; otherwise the big-endian 16-bit value at offset 3 when
    byte 1 is 3 and there are at least 7 bytes, the one at offset 4 when
    byte 1 is 6 and there are at least 8 bytes, and no value in every other
    case, without raising.  Replacing any single byte of a frame whose CRC
    is consistent by a different byte makes it return no value. *)
Theorem parse_response_decoding (response : bytes) :
  wf_bytes response ->
  value_of (parse_response response) = Ok (parse_response_spec response)
  /\ (forall (i : nat) (b' : Z),
        crc_matches response = Ok true ->
        (i < length response)%nat -> is_byte b' -> response !! i <> Some b' ->
        value_of (parse_response (<[i:=b']> response)) = Ok None).
Proof.
  intros Hw. split; [apply parse_response_refines|].
  intros i b' Hm Hi Hb' Hne.
  rewrite parse_response_refines. f_equal.
  unfold parse_response_spec. rewrite length_insert.
  destruct (length response <? 5)%nat; [reflexivity|].
  pose proof (corrupted_crc_differs response i b' Hw Hm Hi Hb' Hne) as Hd.
  apply Z.eqb_neq in Hd. rewrite Hd. reflexivity.
Qed.

Lemma parse_response_decoding_witness :
  wf_bytes [0x01; 0x03; 0x02; 0x00; 0x07; 0xF9; 0x86]
  /\ value_of (parse_response [0x01; 0x03; 0x02; 0x00; 0x07; 0xF9; 0x86])
     = Ok (Some 7)
  /\ value_of (parse_response [0x01; 0x03; 0x02; 0x00; 0x08; 0xF9; 0x86])
     = Ok None.
Proof.
  assert (Hw : wf_bytes [0x01; 0x03; 0x02; 0x00; 0x07; 0xF9; 0x86]) by wf_frame.
  destruct (parse_response_decoding _ Hw) as [Hdec Hcor].
  split; [exact Hw|]. split.
  - rewrite Hdec. reflexivity.
  - apply (Hcor 4%nat 0x08).
    + reflexivity.
    + simpl. lia.
    + unfold is_byte. lia.
    + discriminate.
Defined.

(** *** The checksum *)

Lemma crc_matches_with_crc (seq : bytes) :
  wf_bytes seq -> crc_matches (with_crc seq) = Ok true.
Proof.
  intros Hw. unfold crc_matches, with_crc, slice_last, slice_but_last.
  rewrite length_app. cbn [length].
  replace (length seq + 2 - 2)%nat with (length seq) by lia.
  rewrite drop_app_length, take_app_length.
  cbn [struct_unpack_H rbind]. rewrite word_join, Z.eqb_refl. reflexivity.
Qed.

Lemma flipped_byte (b k : Z) :
  is_byte b -> 0 <= k < 8 ->
  is_byte (Z.lxor b (Z.shiftl 1 k)) /\ Z.lxor b (Z.shiftl 1 k) <> b.
Proof.
  unfold is_byte. intros Hb Hk.
  rewrite Z.shiftl_1_l.
  assert (Hp : 0 < 2 ^ k < 2 ^ 8).
  { split; [apply Z.pow_pos_nonneg; lia | apply Z.pow_lt_mono_r; lia]. }
  split.
  - change 256 with (2 ^ 8). apply lxor_below; simpl in *; lia.
  - intros Heq. apply (f_equal (Z.lxor b)) in Heq.
    rewrite <- Z.lxor_assoc, Z.lxor_nilpotent, Z.lxor_0_l in Heq. lia.
Qed.

Lemma calculate_crc16_flip_bit (seq : bytes) (i : nat) (k : Z) :
  wf_bytes seq -> (i < length seq)%nat -> 0 <= k < 8 ->
  calculate_crc16 (flip_bit seq i k) <> calculate_crc16 seq.
Proof.
  intros Hw Hi Hk. unfold flip_bit.
  destruct (seq !! i) as [b|] eqn:Hb.
  - assert (Hbyte : is_byte b) by (eapply Forall_lookup_1; eauto).
    destruct (flipped_byte b k Hbyte Hk) as [Hf Hne].
    eapply calculate_crc16_insert_neq; eauto.
  - apply lookup_ge_None in Hb. lia.
Qed.

Lemma calculate_crc16_snoc (seq : bytes) (b : Z) :
  calculate_crc16 (seq ++ [b])
  = Nat.iter 8 crc_shift (Z.lxor (calculate_crc16 seq) b).
Proof. unfold calculate_crc16. rewrite fold_left_app. reflexivity. Qed.

Lemma lxor_low_byte (c b : Z) : is_byte b -> Z.lxor c b / 256 = c / 256.
Proof.
  unfold is_byte. intros Hb.
  change 256 with (2 ^ 8). rewrite <- !Z.shiftr_div_pow2 by lia.
  rewrite Z.shiftr_lxor.
  replace (Z.shiftr b 8) with 0; [apply Z.lxor_0_r|].
  rewrite Z.shiftr_div_pow2 by lia. symmetry. apply Z.div_small.
  change (2 ^ 8) with 256. lia.
Qed.

Lemma crc_shift_cases (c : Z) :
  (c mod 2 = 1 -> crc_shift c = Z.lxor (c / 2) 0xA001)
  /\ (c mod 2 = 0 -> crc_shift c = c / 2).
Proof.
  unfold crc_shift. rewrite land1_parity, shiftr1_half.
  split; intros ->; reflexivity.
Qed.

(** C3: the CRC of a byte sequence is a 16-bit value; appended low byte
    first, it passes the comparison [parse_response] makes; and flipping any
    one bit of the sequence gives a different CRC.  The function is the
    Modbus one: seed 0xFFFF, each byte XORed into the low byte, then eight
    rounds of shift right, with XOR 0xA001 when the bit shifted out is 1. *)
Theorem crc16_detects_bit_flips (seq : bytes) :
  wf_bytes seq ->
  is_word16 (calculate_crc16 seq)
  /\ (exists tail : bytes,
        struct_pack LittleEndian [H (Some (calculate_crc16 seq))] = Ok tail
        /\ crc_matches (seq ++ tail) = Ok true)
  /\ (forall (i : nat) (k : Z),
        (i < length seq)%nat -> 0 <= k < 8 ->
        calculate_crc16 (flip_bit seq i k) <> calculate_crc16 seq)
  /\ calculate_crc16 [] = 0xFFFF
  /\ (forall b : Z,
        calculate_crc16 (seq ++ [b])
        = Nat.iter 8 crc_shift (Z.lxor (calculate_crc16 seq) b))
  /\ (forall b : Z,
        is_byte b ->
        Z.lxor (calculate_crc16 seq) b / 256 = calculate_crc16 seq / 256)
  /\ (forall c : Z,
        (c mod 2 = 1 -> crc_shift c = Z.lxor (Z.shiftr c 1) 0xA001)
        /\ (c mod 2 = 0 -> crc_shift c = Z.shiftr c 1)).
Proof.
  intros Hw.
  split; [apply calculate_crc16_word16, Hw|].
  split.
  { eexists. split; [apply crc_tail, Hw|]. apply crc_matches_with_crc, Hw. }
  split; [intros i k; apply calculate_crc16_flip_bit, Hw|].
  split; [reflexivity|].
  split; [apply calculate_crc16_snoc|].
  split; [intros b; apply lxor_low_byte|].
  intros c. rewrite shiftr1_half. apply crc_shift_cases.
Qed.

Lemma crc16_detects_bit_flips_witness :
  wf_bytes [0x01; 0x03; 0x00; 0x50; 0x00; 0x01]
  /\ calculate_crc16 (flip_bit [0x01; 0x03; 0x00; 0x50; 0x00; 0x01] 3 4)
     <> calculate_crc16 [0x01; 0x03; 0x00; 0x50; 0x00; 0x01].
Proof.
  assert (Hw : wf_bytes [0x01; 0x03; 0x00; 0x50; 0x00; 0x01]) by wf_frame.
  split; [exact Hw|].
  destruct (crc16_detects_bit_flips _ Hw) as (_ & _ & Hflip & _).
  apply (Hflip 3%nat 4); simpl; lia.
Defined.

End Codec.

(** ** The transaction engines *)

(** *** Disconnect *)

Section Disconnect.

Lemma modbus_reachable_consistent (self : Modbus.controller) :
  Modbus.reachable self -> modbus_consistent self.
Proof.
  induction 1 as [p b s | dev self _ IH | self _ IH].
  - reflexivity.
  - unfold Modbus.connect. destruct (dev_open dev) as [u|[]]; try exact IH.
    reflexivity.
  - revert IH. unfold modbus_consistent, Modbus.disconnect.
    destruct self as [p b s [conn|] [|]]; simpl; auto.
Qed.

Lemma cmd_reachable_consistent (self : Cmd.controller) :
  Cmd.reachable self -> cmd_consistent self.
Proof.
  induction 1 as [p b | dev self _ IH | self _ IH].
  - reflexivity.
  - unfold Cmd.connect. destruct (dev_open dev) as [u|[]]; try exact IH.
    reflexivity.
  - revert IH. unfold cmd_consistent, Cmd.disconnect.
    destruct self as [p b [conn|] [|]]; simpl; auto.
Qed.

(** C8: in both drivers [disconnect] raises nothing; on a session that is
    not connected (closed already, or never opened) it changes nothing and
    touches nothing; a second call after a first is such a no-op, so two
    calls leave the state one call leaves; and from any state the session
    can reach, the session is afterwards not connected and holds no open
    channel.  The channel is released by closing it: on a connected session
    holding a channel, [disconnect] calls [close] on it exactly once, keeps
    the closed handle and clears the flag; every reachable connected session
    holds an open channel, so this is what happens there, and a handle is
    never forgotten. *)
Theorem disconnect_idempotent :
  (forall self : Modbus.controller,
      value_of (snd (Modbus.disconnect self)) = Ok tt
      /\ (Modbus.is_connected self = false ->
          Modbus.disconnect self = (self, ret tt))
      /\ Modbus.disconnect (fst (Modbus.disconnect self))
         = (fst (Modbus.disconnect self), ret tt)
      /\ (Modbus.reachable self ->
          Modbus.is_connected (fst (Modbus.disconnect self)) = false
          /\ Modbus.released (fst (Modbus.disconnect self)))
      /\ (forall conn,
            Modbus.is_connected self = true ->
            Modbus.serial_conn self = Some conn ->
            Modbus.disconnect self
            = ({| Modbus.port := Modbus.port self;
                  Modbus.baudrate := Modbus.baudrate self;
                  Modbus.slave_id := Modbus.slave_id self;
                  Modbus.serial_conn := Some {| is_open := false |};
                  Modbus.is_connected := false |},
               ([SerialClose; Log INFO "Disconnected from pump" []], Ok tt)))
      /\ (Modbus.reachable self -> Modbus.is_connected self = true ->
          Modbus.serial_conn self = Some {| is_open := true |}
          /\ trace_of (snd (Modbus.disconnect self))
             = [SerialClose; Log INFO "Disconnected from pump" []]
          /\ Modbus.serial_conn (fst (Modbus.disconnect self))
             = Some {| is_open := false |})
      /\ (Modbus.serial_conn (fst (Modbus.disconnect self)) = None
          <-> Modbus.serial_conn self = None))
  /\ (forall self : Cmd.controller,
      value_of (snd (Cmd.disconnect self)) = Ok tt
      /\ (Cmd.is_connected self = false ->
          Cmd.disconnect self = (self, ret tt))
      /\ Cmd.disconnect (fst (Cmd.disconnect self))
         = (fst (Cmd.disconnect self), ret tt)
      /\ (Cmd.reachable self ->
          Cmd.is_connected (fst (Cmd.disconnect self)) = false
          /\ Cmd.released (fst (Cmd.disconnect self)))
      /\ (forall conn,
            Cmd.is_connected self = true ->
            Cmd.serial_conn self = Some conn ->
            Cmd.disconnect self
            = ({| Cmd.port := Cmd.port self;
                  Cmd.baudrate := Cmd.baudrate self;
                  Cmd.serial_conn := Some {| is_open := false |};
                  Cmd.is_connected := false |},
               ([SerialClose; Log INFO "Disconnected from pump" []], Ok tt)))
      /\ (Cmd.reachable self -> Cmd.is_connected self = true ->
          Cmd.serial_conn self = Some {| is_open := true |}
          /\ trace_of (snd (Cmd.disconnect self))
             = [SerialClose; Log INFO "Disconnected from pump" []]
          /\ Cmd.serial_conn (fst (Cmd.disconnect self))
             = Some {| is_open := false |})
      /\ (Cmd.serial_conn (fst (Cmd.disconnect self)) = None
          <-> Cmd.serial_conn self = None)).
Proof.
  split; intros self.
  - split; [|split; [|split; [|split; [|split; [|split]]]]].
    + destruct self as [p b s [conn|] [|]]; reflexivity.
    + destruct self as [p b s [conn|] [|]]; simpl; intros; first [reflexivity | discriminate].
    + destruct self as [p b s [conn|] [|]]; reflexivity.
    + intros Hr. apply modbus_reachable_consistent in Hr. revert Hr.
      unfold modbus_consistent, Modbus.released.
      destruct self as [p b s [conn|] [|]]; simpl; auto.
    + intros conn Hc Hs. unfold Modbus.disconnect. rewrite Hs, Hc. reflexivity.
    + intros Hr Hc. apply modbus_reachable_consistent in Hr. revert Hr Hc.
      unfold modbus_consistent.
      destruct self as [p b s [[[|]]|] [|]]; simpl; intros;
        first [discriminate | repeat split; reflexivity].
    + destruct self as [p b s [conn|] [|]]; simpl; split; intros;
        first [reflexivity | discriminate].
  - split; [|split; [|split; [|split; [|split; [|split]]]]].
    + destruct self as [p b [conn|] [|]]; reflexivity.
    + destruct self as [p b [conn|] [|]]; simpl; intros; first [reflexivity | discriminate].
    + destruct self as [p b [conn|] [|]]; reflexivity.
    + intros Hr. apply cmd_reachable_consistent in Hr. revert Hr.
      unfold cmd_consistent, Cmd.released.
      destruct self as [p b [conn|] [|]]; simpl; auto.
    + intros conn Hc Hs. unfold Cmd.disconnect. rewrite Hs, Hc. reflexivity.
    + intros Hr Hc. apply cmd_reachable_consistent in Hr. revert Hr Hc.
      unfold cmd_consistent.
      destruct self as [p b [[[|]]|] [|]]; simpl; intros;
        first [discriminate | repeat split; reflexivity].
    + destruct self as [p b [conn|] [|]]; simpl; split; intros;
        first [reflexivity | discriminate].
Qed.

Lemma disconnect_idempotent_witness :
  Modbus.reachable
    (fst (Modbus.connect (replying (fun r => r))
            (Modbus.__init__ "/dev/tty.usbserial" 9600 1)))
  /\ Modbus.is_connected
       (fst (Modbus.connect (replying (fun r => r))
               (Modbus.__init__ "/dev/tty.usbserial" 9600 1))) = true
  /\ Modbus.is_connected
       (fst (Modbus.disconnect
               (fst (Modbus.connect (replying (fun r => r))
                       (Modbus.__init__ "/dev/tty.usbserial" 9600 1))))) = false
  /\ Modbus.released
       (fst (Modbus.disconnect
               (fst (Modbus.connect (replying (fun r => r))
                       (Modbus.__init__ "/dev/tty.usbserial" 9600 1)))))
  /\ trace_of
       (snd (Modbus.disconnect
               (fst (Modbus.connect (replying (fun r => r))
                       (Modbus.__init__ "/dev/tty.usbserial" 9600 1)))))
     = [SerialClose; Log INFO "Disconnected from pump" []]
  /\ Modbus.serial_conn
       (fst (Modbus.disconnect
               (fst (Modbus.connect (replying (fun r => r))
                       (Modbus.__init__ "/dev/tty.usbserial" 9600 1)))))
     = Some {| is_open := false |}.
Proof.
  assert (Hr : Modbus.reachable
                 (fst (Modbus.connect (replying (fun r => r))
                         (Modbus.__init__ "/dev/tty.usbserial" 9600 1))))
    by (apply Modbus.reach_connect, Modbus.reach_init).
  split; [exact Hr|]. split; [reflexivity|].
  destruct disconnect_idempotent as [Hm _].
  destruct (Hm (fst (Modbus.connect (replying (fun r => r))
                       (Modbus.__init__ "/dev/tty.usbserial" 9600 1))))
    as (_ & _ & _ & Hafter & _ & Hclose & _).
  destruct (Hafter Hr) as [Hflag Hrel].
  destruct (Hclose Hr eq_refl) as (_ & Htrace & Hconn).
  split; [exact Hflag|]. split; [exact Hrel|]. split; [exact Htrace | exact Hconn].
Defined.

End Disconnect.

(** *** Memory slots *)

Section Memory.

(** C9: [save_to_memory] and [load_from_memory] return [True] for every
    slot from 1 to 60 (slot 1 and slot 60 among them) and [False], with an
    error record, for every other slot (0 and 61 among them); neither
    touches the channel. *)
Theorem memory_slot_range (self : Modbus.controller) (slot : Z) :
  (1 <= slot <= 60 ->
     Modbus.save_to_memory self slot
     = ([Log INFO "Saving to memory slot {}" [AInt slot]], Ok true)
     /\ Modbus.load_from_memory self slot
        = ([Log INFO "Loading from memory slot {}" [AInt slot]], Ok true))
  /\ (slot < 1 \/ 60 < slot ->
     Modbus.save_to_memory self slot
     = ([Log ERROR "Invalid memory slot: {} (must be 1-60)" [AInt slot]], Ok false)
     /\ Modbus.load_from_memory self slot
        = ([Log ERROR "Invalid memory slot: {} (must be 1-60)" [AInt slot]], Ok false))
  /\ channel_io (trace_of (Modbus.save_to_memory self slot)) = []
  /\ channel_io (trace_of (Modbus.load_from_memory self slot)) = []
  /\ value_of (Modbus.save_to_memory self 1) = Ok true
  /\ value_of (Modbus.save_to_memory self 60) = Ok true
  /\ value_of (Modbus.load_from_memory self 1) = Ok true
  /\ value_of (Modbus.load_from_memory self 60) = Ok true
  /\ value_of (Modbus.save_to_memory self 0) = Ok false
  /\ value_of (Modbus.save_to_memory self 61) = Ok false
  /\ value_of (Modbus.load_from_memory self 0) = Ok false
  /\ value_of (Modbus.load_from_memory self 61) = Ok false.
Proof.
  unfold Modbus.save_to_memory, Modbus.load_from_memory.
  split; [|split; [|split; [|split]]].
  - intros Hs.
    replace (1 <=? slot) with true by lia.
    replace (slot <=? 60) with true by lia. split; reflexivity.
  - intros Hs.
    replace ((1 <=? slot) && (slot <=? 60)) with false by lia.
    split; reflexivity.
  - destruct (negb _); reflexivity.
  - destruct (negb _); reflexivity.
  - repeat split; reflexivity.
Qed.

Lemma memory_slot_range_witness :
  1 <= 60 <= 60 /\ (0 < 1 \/ 60 < 0) /\
  value_of (Modbus.save_to_memory (Modbus.__init__ "/dev/tty.usbserial" 9600 1) 60)
  = Ok true
  /\ value_of (Modbus.load_from_memory (Modbus.__init__ "/dev/tty.usbserial" 9600 1) 0)
     = Ok false.
Proof.
  split; [lia|]. split; [lia|]. split.
  - destruct (memory_slot_range (Modbus.__init__ "/dev/tty.usbserial" 9600 1) 60)
      as [Hin _].
    destruct (Hin ltac:(lia)) as [-> _]. reflexivity.
  - destruct (memory_slot_range (Modbus.__init__ "/dev/tty.usbserial" 9600 1) 0)
      as (_ & Hout & _).
    destruct (Hout ltac:(lia)) as [_ ->]. reflexivity.
Defined.

End Memory.

(** *** Preconditions of a transaction *)

Section Preconditions.

Lemma unknown_register (register_name : string) :
  register_name ∉ register_names -> Modbus.lookup_register register_name = None.
Proof.
  intros Hn. unfold Modbus.lookup_register, Modbus.REGISTERS.
  rewrite (not_elem_of_list_to_map_1 _ register_name); [reflexivity|].
  exact Hn.
Qed.

Lemma known_register (register_name : string) :
  register_name ∈ register_names ->
  exists addr, Modbus.lookup_register register_name = Some addr
               /\ Modbus.REGISTERS !! register_name = Some addr
               /\ 0 < addr < 256.
Proof.
  unfold register_names. intros Hin.
  repeat (apply elem_of_cons in Hin as [-> | Hin];
          [eexists; repeat split; reflexivity|]).
  apply elem_of_nil in Hin. contradiction.
Qed.

Lemma read_register_disconnected (dev : device) (self : Modbus.controller)
    (register_name : string) :
  Modbus.is_connected self = false ->
  Modbus.read_register dev self register_name
  = ([Log ERROR "Not connected to pump" []], Ok None).
Proof. intros H. unfold Modbus.read_register. rewrite H. reflexivity. Qed.

Lemma write_register_disconnected (dev : device) (self : Modbus.controller)
    (register_name : string) (value : Z) :
  Modbus.is_connected self = false ->
  Modbus.write_register dev self register_name value
  = ([Log ERROR "Not connected to pump" []], Ok false).
Proof. intros H. unfold Modbus.write_register. rewrite H. reflexivity. Qed.

(** Every operation that goes through [write_register] or [read_register]
    stays off the wire while the session is not connected. *)
Lemma disconnected_no_io (dev : device) (self : Modbus.controller) :
  Modbus.is_connected self = false ->
  (forall mode, channel_io (trace_of (Modbus.set_mode dev self mode)) = [])
  /\ (forall rate, channel_io (trace_of (Modbus.set_flow_rate dev self rate)) = [])
  /\ (forall speed, channel_io (trace_of (Modbus.set_linear_speed dev self speed)) = [])
  /\ channel_io (trace_of (Modbus.start dev self)) = []
  /\ channel_io (trace_of (Modbus.stop dev self)) = []
  /\ channel_io (trace_of (Modbus.get_status dev self)) = [].
Proof.
  intros H. repeat split.
  - intros mode. unfold Modbus.set_mode.
    destruct mode; cbn [Modbus.mode_values Z.eqb negb];
      rewrite write_register_disconnected by exact H; reflexivity.
  - intros rate. unfold Modbus.set_flow_rate.
    destruct (negb _); [reflexivity|].
    destruct (int_of_float _) as [v|e]; [|reflexivity].
    cbn [lift bind]. rewrite write_register_disconnected by exact H. reflexivity.
  - intros speed. unfold Modbus.set_linear_speed.
    destruct (negb _); [reflexivity|].
    destruct (int_of_float _) as [v|e]; [|reflexivity].
    cbn [lift bind]. rewrite write_register_disconnected by exact H. reflexivity.
  - unfold Modbus.start. rewrite write_register_disconnected by exact H. reflexivity.
  - unfold Modbus.stop. rewrite write_register_disconnected by exact H. reflexivity.
  - unfold Modbus.get_status. rewrite read_register_disconnected by exact H. reflexivity.
Qed.

(** C7: while the session is not connected, [read_register] and
    [write_register] log "Not connected to pump" and return no value /
    [False]; when it is connected and the name is none of the eight of the
    register table, they log "Unknown register" and return no value /
    [False].  In both cases nothing is written to or read from the channel,
    and no operation built on them reaches the channel while
    disconnected. *)
Theorem transaction_preconditions (dev : device) (self : Modbus.controller)
    (register_name : string) (value : Z) :
  (Modbus.is_connected self = false ->
     Modbus.read_register dev self register_name
     = ([Log ERROR "Not connected to pump" []], Ok None)
     /\ Modbus.write_register dev self register_name value
        = ([Log ERROR "Not connected to pump" []], Ok false)
     /\ channel_io (trace_of (Modbus.read_register dev self register_name)) = []
     /\ channel_io (trace_of (Modbus.write_register dev self register_name value)) = []
     /\ (forall mode, channel_io (trace_of (Modbus.set_mode dev self mode)) = [])
     /\ (forall rate, channel_io (trace_of (Modbus.set_flow_rate dev self rate)) = [])
     /\ (forall speed,
            channel_io (trace_of (Modbus.set_linear_speed dev self speed)) = [])
     /\ channel_io (trace_of (Modbus.start dev self)) = []
     /\ channel_io (trace_of (Modbus.stop dev self)) = []
     /\ channel_io (trace_of (Modbus.get_status dev self)) = [])
  /\ (Modbus.is_connected self = true ->
      register_name ∉ register_names ->
     Modbus.read_register dev self register_name
     = ([Log ERROR "Unknown register: {}" [AStr register_name]], Ok None)
     /\ Modbus.write_register dev self register_name value
        = ([Log ERROR "Unknown register: {}" [AStr register_name]], Ok false)
     /\ channel_io (trace_of (Modbus.read_register dev self register_name)) = []
     /\ channel_io (trace_of (Modbus.write_register dev self register_name value)) = [])
  /\ (forall name, Modbus.REGISTERS !! name = None <-> name ∉ register_names).
Proof.
  split; [|split].
  - intros H.
    rewrite read_register_disconnected, write_register_disconnected by exact H.
    repeat (split; [reflexivity|]). apply disconnected_no_io, H.
  - intros H Hn.
    unfold Modbus.read_register, Modbus.write_register.
    rewrite H, unknown_register by exact Hn. repeat split; reflexivity.
  - intros name. unfold Modbus.REGISTERS.
    rewrite <- not_elem_of_list_to_map. reflexivity.
Qed.

Lemma transaction_preconditions_witness :
  Modbus.is_connected (Modbus.__init__ "/dev/tty.usbserial" 9600 1) = false
  /\ Modbus.is_connected (connected_session 1) = true
  /\ ("PRESSURE" ∉ register_names)
  /\ channel_io (trace_of (Modbus.write_register (replying (fun r => r))
                   (Modbus.__init__ "/dev/tty.usbserial" 9600 1) "START_STOP" 1)) = []
  /\ Modbus.read_register (replying (fun r => r)) (connected_session 1) "PRESSURE"
     = ([Log ERROR "Unknown register: {}" [AStr "PRESSURE"]], Ok None).
Proof.
  assert (Hn : "PRESSURE" ∉ register_names).
  { unfold register_names. intros Hin.
    repeat (apply elem_of_cons in Hin as [Hin | Hin]; [discriminate Hin|]).
    apply elem_of_nil in Hin. exact Hin. }
  split; [reflexivity|]. split; [reflexivity|]. split; [exact Hn|]. split.
  - destruct (transaction_preconditions (replying (fun r => r))
                (Modbus.__init__ "/dev/tty.usbserial" 9600 1) "START_STOP" 1)
      as [Hd _].
    destruct (Hd eq_refl) as (_ & _ & _ & Hw & _). exact Hw.
  - destruct (transaction_preconditions (replying (fun r => r))
                (connected_session 1) "PRESSURE" 1) as (_ & Hu & _).
    destruct (Hu eq_refl Hn) as [Hr _]. exact Hr.
Defined.

End Preconditions.

(** *** One exchange on an open channel *)

Section Exchange.

#[local] Arguments parse_response : simpl never.
#[local] Arguments build_request : simpl never.
#[local] Arguments take : simpl never.

Variable dev : device.
Variable self : Modbus.controller.
Variable register_name : string.
Variable register_addr : Z.

Hypothesis Hconnected : Modbus.is_connected self = true.
Hypothesis Hchannel : Modbus.serial_conn self = Some {| is_open := true |}.
Hypothesis Hregister : Modbus.lookup_register register_name = Some register_addr.

Lemma parse_response_eq (response : bytes) :
  parse_response response
  = (trace_of (parse_response response), Ok (parse_response_spec response)).
Proof.
  rewrite <- parse_response_refines.
  destruct (parse_response response). reflexivity.
Qed.

(** What [read_register] does once the request is on the wire and the
    channel hands back [pending]. *)
Lemma read_register_exchange (request pending : bytes) :
  build_request (Modbus.slave_id self) 3 register_addr None 1 = Ok request ->
  dev_write dev request = Ok tt ->
  dev_pending dev request = Ok pending ->
  Modbus.read_register dev self register_name
  = ([SerialWrite request;
      Log DEBUG "Sent Modbus read request for {}" [AStr register_name];
      Sleep 50; SerialRead 256]
     ++ match take 256 pending with
        | [] => []
        | response =>
            trace_of (parse_response response)
            ++ [Log DEBUG "Read {}: {}"
                  [AStr register_name; AOptInt (parse_response_spec response)]]
        end,
     Ok match take 256 pending with
        | [] => None
        | response => parse_response_spec response
        end).
Proof.
  intros Hreq Hw Hp. unfold Modbus.read_register.
  rewrite Hconnected, Hregister, Hreq, Hchannel.
  cbn [negb lift bind try_except serial_write serial_read is_open emit log app].
  rewrite Hw, Hp.
  cbn [negb lift bind try_except ret app].
  destruct (take 256 pending) as [|b rest]; [reflexivity|].
  rewrite (parse_response_eq (b :: rest)) at 1.
  cbn [bind try_except ret log emit app].
  rewrite ?app_nil_r. reflexivity.
Qed.

Lemma write_register_exchange (value : Z) (request pending : bytes) :
  build_request (Modbus.slave_id self) 6 register_addr (Some value) 1 = Ok request ->
  dev_write dev request = Ok tt ->
  dev_pending dev request = Ok pending ->
  Modbus.write_register dev self register_name value
  = ([SerialWrite request;
      Log DEBUG "Sent Modbus write request for {}: {}"
        [AStr register_name; AInt value];
      Sleep 50; SerialRead 256]
     ++ match take 256 pending with
        | [] => []
        | response =>
            trace_of (parse_response response)
            ++ match parse_response_spec response with
               | Some _ => [Log INFO "Written {}: {}" [AStr register_name; AInt value]]
               | None => []
               end
        end,
     Ok match take 256 pending with
        | [] => false
        | response =>
            match parse_response_spec response with
            | Some _ => true
            | None => false
            end
        end).
Proof.
  intros Hreq Hw Hp. unfold Modbus.write_register.
  rewrite Hconnected, Hregister, Hreq, Hchannel.
  cbn [negb lift bind try_except serial_write serial_read is_open emit log app].
  rewrite Hw, Hp.
  cbn [negb lift bind try_except ret app].
  destruct (take 256 pending) as [|b rest]; [reflexivity|].
  rewrite (parse_response_eq (b :: rest)) at 1.
  destruct (parse_response_spec (b :: rest));
    cbn [bind try_except ret log emit app];
    rewrite ?app_nil_r; reflexivity.
Qed.

(** A request that cannot be packed never reaches the channel. *)
Lemma write_register_unpackable (value : Z) (e : exn) :
  build_request (Modbus.slave_id self) 6 register_addr (Some value) 1 = Raise e ->
  Modbus.write_register dev self register_name value
  = ([Log ERROR "Error writing register: {}" [AExn e]], Ok false).
Proof.
  intros Hreq. unfold Modbus.write_register.
  rewrite Hconnected, Hregister, Hreq. reflexivity.
Qed.

End Exchange.

(** *** Failures of an exchange *)

Section Failures.

Lemma parse_response_no_io (response : bytes) :
  channel_io (trace_of (parse_response response)) = [].
Proof. destruct (parse_response_trace response) as [-> | ->]; reflexivity. Qed.


Lemma channel_io_app (t1 t2 : list event) :
  channel_io (t1 ++ t2) = channel_io t1 ++ channel_io t2.
Proof. apply List.filter_app. Qed.

(** The silent line and a line that answers with a frame whose CRC is
    wrong. *)
Example silent_line_read :
  Modbus.read_register (replying (fun _ => [])) (connected_session 1) "STATUS"
  = ([SerialWrite [0x01; 0x03; 0x00; 0x50; 0x00; 0x01; 0x84; 0x1B];
      Log DEBUG "Sent Modbus read request for {}" [AStr "STATUS"];
      Sleep 50; SerialRead 256], Ok None).
Proof. vm_compute. reflexivity. Qed.

Example garbled_line_read :
  Modbus.read_register
    (replying (fun _ => [0x01; 0x03; 0x02; 0x00; 0x07; 0x00; 0x00]))
    (connected_session 1) "STATUS"
  = ([SerialWrite [0x01; 0x03; 0x00; 0x50; 0x00; 0x01; 0x84; 0x1B];
      Log DEBUG "Sent Modbus read request for {}" [AStr "STATUS"];
      Sleep 50; SerialRead 256;
      Log ERROR "CRC check failed" [];
      Log DEBUG "Read {}: {}" [AStr "STATUS"; AOptInt None]], Ok None).
Proof. vm_compute. reflexivity. Qed.





End Failures.

(** *** Flow rate *)

Section FlowRate.

#[local] Arguments parse_response : simpl never.
#[local] Arguments build_request : simpl never.
#[local] Arguments take : simpl never.

Example literal_0_002 : float_lit 2 3 = S754_finite false 4611686018427388 (-61).
Proof. vm_compute. reflexivity. Qed.

Example product_0_29 :
  int_of_float (fmul (float_lit 29 2) (float_of_Z 100)) = Ok 28.
Proof. vm_compute. reflexivity. Qed.

Lemma modbus_flow_rate_rejected (dev : device) (self : Modbus.controller)
    (rate : spec_float) :
  between (float_lit 2 3) rate (float_of_Z 165871) = false ->
  Modbus.set_flow_rate dev self rate
  = ([Log ERROR "Flow rate {} out of range (0.002-165871 μL/min)" [AFloat rate]],
     Ok false).
Proof. intros H. unfold Modbus.set_flow_rate. rewrite H. reflexivity. Qed.

Lemma cmd_flow_rate_rejected (format_3f : spec_float -> string) (dev : device)
    (self : Cmd.controller) (rate : spec_float) :
  between (float_lit 1 3) rate (float_of_Z 127000) = false ->
  Cmd.set_flow_rate format_3f dev self rate
  = ([Log ERROR "Flow rate {} out of range (0.001-127000 μL/min)" [AFloat rate]],
     Ok false).
Proof. intros H. unfold Cmd.set_flow_rate. rewrite H. reflexivity. Qed.

(** 0.0015 and 200000 are refused by the Modbus driver, 200000 by the
    command-string driver, with nothing on the wire. *)
Lemma flow_rate_out_of_range (format_3f : spec_float -> string) (dev : device)
    (m : Modbus.controller) (c : Cmd.controller) :
  channel_io (trace_of (Modbus.set_flow_rate dev m (float_lit 15 4))) = []
  /\ value_of (Modbus.set_flow_rate dev m (float_lit 15 4)) = Ok false
  /\ channel_io (trace_of (Modbus.set_flow_rate dev m (float_of_Z 200000))) = []
  /\ value_of (Modbus.set_flow_rate dev m (float_of_Z 200000)) = Ok false
  /\ channel_io (trace_of (Cmd.set_flow_rate format_3f dev c (float_of_Z 200000))) = []
  /\ value_of (Cmd.set_flow_rate format_3f dev c (float_of_Z 200000)) = Ok false.
Proof.
  rewrite !modbus_flow_rate_rejected by (vm_compute; reflexivity).
  rewrite !cmd_flow_rate_rejected by (vm_compute; reflexivity).
  repeat split; reflexivity.
Qed.

Lemma parse_response_no_write (response : bytes) :
  List.filter is_write (trace_of (parse_response response)) = [].
Proof. destruct (parse_response_trace response) as [-> | ->]; reflexivity. Qed.

(** Once the request is packed, [write_register] writes it exactly once,
    whatever the line does next. *)
Lemma write_register_one_write (dev : device) (self : Modbus.controller)
    (register_name : string) (register_addr value : Z) (request : bytes) :
  Modbus.is_connected self = true ->
  Modbus.serial_conn self = Some {| is_open := true |} ->
  Modbus.lookup_register register_name = Some register_addr ->
  build_request (Modbus.slave_id self) 6 register_addr (Some value) 1 = Ok request ->
  List.filter is_write (trace_of (Modbus.write_register dev self register_name value))
  = [SerialWrite request].
Proof.
  intros Hc Hch Hl Hreq.
  destruct (dev_write dev request) as [[]|e] eqn:Hw.
  - destruct (dev_pending dev request) as [pending|e] eqn:Hp.
    + rewrite (write_register_exchange dev self register_name register_addr
                 Hc Hch Hl value request pending Hreq Hw Hp).
      unfold trace_of. cbn [fst app List.filter is_write]. f_equal.
      destruct (take 256 pending) as [|b rest]; [reflexivity|].
      cbv beta iota zeta. rewrite List.filter_app.
      rewrite (parse_response_no_write (b :: rest)
               : List.filter is_write (fst (parse_response (b :: rest))) = []).
      destruct (parse_response_spec (b :: rest)); reflexivity.
    + unfold Modbus.write_register. rewrite Hc, Hl, Hreq, Hch.
      cbn [negb lift bind try_except serial_write serial_read is_open emit log app].
      rewrite Hw, Hp. reflexivity.
  - unfold Modbus.write_register. rewrite Hc, Hl, Hreq, Hch.
    cbn [negb lift bind try_except serial_write serial_read is_open emit log app].
    rewrite Hw. reflexivity.
Qed.

(** A rate whose scaled value fits a register goes out in one write to
    FLOW_RATE. *)
Lemma flow_rate_one_write (dev : device) (self : Modbus.controller)
    (rate : spec_float) (register_value : Z) :
  Modbus.is_connected self = true ->
  Modbus.serial_conn self = Some {| is_open := true |} ->
  is_byte (Modbus.slave_id self) ->
  between (float_lit 2 3) rate (float_of_Z 165871) = true ->
  int_of_float (fmul rate (float_of_Z 100)) = Ok register_value ->
  is_word16 register_value ->
  List.filter is_write (trace_of (Modbus.set_flow_rate dev self rate))
  = [SerialWrite (with_crc [Modbus.slave_id self; 6; 0x00; 0x10;
                            register_value / 256; register_value mod 256])].
Proof.
  intros Hc Hch Hs Hin Hint Hv. unfold Modbus.set_flow_rate.
  rewrite Hin, Hint. cbn [negb lift bind].
  pose proof (write_register_one_write dev self "FLOW_RATE" 0x10 register_value _
                Hc Hch eq_refl
                (build_request_6 (Modbus.slave_id self) 0x10 register_value 1 Hs
                   ltac:(unfold is_word16; lia) Hv)) as Hone.
  destruct (Modbus.write_register dev self "FLOW_RATE" register_value)
    as [t [success|e]]; unfold trace_of in *; cbn [fst] in *.
  - destruct success; cbn [bind log emit ret fst app];
      rewrite ?app_nil_r, ?List.filter_app, Hone; reflexivity.
  - exact Hone.
Qed.

Example flow_rate_100 (dev : device) :
  List.filter is_write
    (trace_of (Modbus.set_flow_rate dev (connected_session 1) (float_of_Z 100)))
  = [SerialWrite [0x01; 0x06; 0x00; 0x10; 0x27; 0x10; 0x92; 0x33]].
Proof.
  rewrite (flow_rate_one_write dev (connected_session 1) (float_of_Z 100) 10000);
    try reflexivity; unfold is_byte, is_word16; simpl; lia.
Qed.

(** A value that does not fit 16 bits cannot be packed, whatever the slave
    id. *)
Lemma build_request_6_overflow (slave_id register_addr value count : Z) :
  is_word16 register_addr -> 65536 <= value ->
  build_request slave_id 6 register_addr (Some value) count = Raise StructError.
Proof.
  intros Ha Hv. unfold build_request. cbn [Z.eqb Pos.eqb struct_pack pack_field].
  destruct ((0 <=? slave_id) && (slave_id <? 256)); [|reflexivity].
  cbn [rbind]. unfold is_word16 in Ha.
  replace (0 <=? register_addr) with true by lia.
  replace (register_addr <? 65536) with true by lia.
  replace (value <? 65536) with false by lia.
  rewrite andb_false_r. reflexivity.
Qed.

Lemma flow_rate_overflow (dev : device) (self : Modbus.controller)
    (rate : spec_float) (register_value : Z) :
  Modbus.is_connected self = true ->
  between (float_lit 2 3) rate (float_of_Z 165871) = true ->
  int_of_float (fmul rate (float_of_Z 100)) = Ok register_value ->
  65536 <= register_value ->
  Modbus.set_flow_rate dev self rate
  = ([Log ERROR "Error writing register: {}" [AExn StructError]], Ok false).
Proof.
  intros Hc Hin Hint Hv. unfold Modbus.set_flow_rate.
  rewrite Hin, Hint. cbn [negb lift bind].
  rewrite (write_register_unpackable dev self "FLOW_RATE" 0x10 Hc eq_refl
             register_value StructError).
  - reflexivity.
  - apply build_request_6_overflow; [unfold is_word16; lia | exact Hv].
Qed.

(** C5, where the code departs from it: 1000.0 lies inside the accepted
    interval, is scaled to 100000, and on a connected session with an open
    channel nothing is written: the request cannot be packed, the
    [struct.error] is caught, and [set_flow_rate] returns [False]. *)
Theorem flow_rate_1000_never_sent (dev : device) :
  between (float_lit 2 3) (float_of_Z 1000) (float_of_Z 165871) = true
  /\ int_of_float (fmul (float_of_Z 1000) (float_of_Z 100)) = Ok 100000
  /\ Modbus.set_flow_rate dev (connected_session 1) (float_of_Z 1000)
     = ([Log ERROR "Error writing register: {}" [AExn StructError]], Ok false)
  /\ channel_io (trace_of (Modbus.set_flow_rate dev (connected_session 1)
                             (float_of_Z 1000))) = [].
Proof.
  assert (Hin : between (float_lit 2 3) (float_of_Z 1000) (float_of_Z 165871) = true)
    by (vm_compute; reflexivity).
  assert (Hint : int_of_float (fmul (float_of_Z 1000) (float_of_Z 100)) = Ok 100000)
    by (vm_compute; reflexivity).
  split; [exact Hin|]. split; [exact Hint|].
  rewrite (flow_rate_overflow dev (connected_session 1) (float_of_Z 1000) 100000
             eq_refl Hin Hint ltac:(lia)).
  split; reflexivity.
Qed.

End FlowRate.

(** ** More about the codec *)

Section CodecMore.

Ltac wf_frame :=
  unfold wf_bytes;
  repeat (apply Forall_cons_2;
          [first [ assumption
                 | apply hi_byte_range; assumption
                 | apply lo_byte_range
                 | unfold is_byte; lia ] |]);
  apply Forall_nil_2.

(** *** The residue of a sealed frame *)

Lemma crc_shift_double (y : Z) : crc_shift (2 * y) = y.
Proof.
  unfold crc_shift. rewrite land1_parity, shiftr1_half.
  replace ((2 * y) mod 2) with 0 by (Z.div_mod_to_equations; lia).
  replace (2 * y / 2) with y by (Z.div_mod_to_equations; lia).
  reflexivity.
Qed.

Lemma crc_rounds_shifted (n : nat) (h : Z) :
  Nat.iter n crc_shift (2 ^ Z.of_nat n * h) = h.
Proof.
  revert h. induction n as [|n IH]; intros h.
  - simpl. lia.
  - rewrite Nat.iter_succ, Nat2Z.inj_succ, Z.pow_succ_r by lia.
    replace (2 * 2 ^ Z.of_nat n * h) with (2 ^ Z.of_nat n * (2 * h)) by lia.
    rewrite IH. apply crc_shift_double.
Qed.

Lemma lxor_own_low_byte (c : Z) :
  0 <= c -> Z.lxor c (c mod 256) = 2 ^ 8 * (c / 256).
Proof.
  intros Hc. change 256 with (2 ^ 8). apply Z.bits_inj'. intros n Hn.
  rewrite Z.lxor_spec, Z.mul_comm, <- Z.shiftl_mul_pow2 by lia.
  rewrite <- Z.shiftr_div_pow2 by lia.
  destruct (Z.lt_ge_cases n 8) as [Hlt|Hge].
  - rewrite Z.mod_pow2_bits_low by lia.
    rewrite Z.shiftl_spec_low by lia. apply xorb_nilpotent.
  - rewrite Z.mod_pow2_bits_high by lia.
    rewrite Z.shiftl_spec by lia. rewrite Z.shiftr_spec by lia.
    rewrite xorb_false_r. f_equal. lia.
Qed.

Lemma crc_byte_own_low (c : Z) : 0 <= c -> crc_byte c (c mod 256) = c / 256.
Proof.
  intros Hc. unfold crc_byte. rewrite lxor_own_low_byte by exact Hc.
  apply (crc_rounds_shifted 8).
Qed.

Lemma crc_byte_self (h : Z) : crc_byte h h = 0.
Proof. unfold crc_byte. rewrite Z.lxor_nilpotent. reflexivity. Qed.

Lemma crc_of_with_crc (data : bytes) :
  wf_bytes data -> calculate_crc16 (with_crc data) = 0.
Proof.
  intros Hw. pose proof (calculate_crc16_word16 data Hw) as [Hc _].
  unfold with_crc. unfold calculate_crc16 at 1. rewrite fold_left_app.
  fold (calculate_crc16 data). cbn [fold_left].
  rewrite crc_byte_own_low by exact Hc. apply crc_byte_self.
Qed.

(** *** When [build_request] returns, and what *)

Lemma pack_field_B_inv (e : endian) (x : option Z) (l : bytes) :
  pack_field e (B x) = Ok l -> exists b, x = Some b /\ is_byte b /\ l = [b].
Proof.
  destruct x as [b|]; [|discriminate]. cbn [pack_field].
  destruct ((0 <=? b) && (b <? 256)) eqn:Hr; [|discriminate].
  intros [= <-]. exists b. unfold is_byte. repeat split; lia.
Qed.

Lemma pack_field_H_inv (x : option Z) (l : bytes) :
  pack_field BigEndian (H x) = Ok l ->
  exists w, x = Some w /\ is_word16 w /\ l = [w / 256; w mod 256].
Proof.
  destruct x as [w|]; [|discriminate]. cbn [pack_field].
  destruct ((0 <=? w) && (w <? 65536)) eqn:Hr; [|discriminate].
  intros [= <-]. exists w. unfold is_word16. repeat split; lia.
Qed.

Lemma build_request_inv (slave_id function_code register_addr : Z)
    (value : option Z) (count : Z) (frame : bytes) :
  build_request slave_id function_code register_addr value count = Ok frame ->
  is_byte slave_id /\ is_word16 register_addr
  /\ exists data,
       request_fields slave_id function_code register_addr value count data
       /\ wf_bytes data /\ frame = with_crc data.
Proof.
  unfold build_request, request_fields.
  destruct (function_code =? 3) eqn:H3;
    [|destruct (function_code =? 6) eqn:H6;
      [|destruct (function_code =? 16) eqn:H16; [|discriminate]]];
    cbn [struct_pack].
  - apply Z.eqb_eq in H3. subst function_code.
    destruct (pack_field BigEndian (B (Some slave_id))) as [l1|] eqn:E1;
      [|discriminate].
    apply pack_field_B_inv in E1 as (b & [= <-] & Hs & ->).
    rewrite pack_field_B by (unfold is_byte; lia).
    destruct (pack_field BigEndian (H (Some register_addr))) as [l3|] eqn:E3;
      [|discriminate].
    apply pack_field_H_inv in E3 as (a & [= <-] & Ha & ->).
    destruct (pack_field BigEndian (H (Some count))) as [l4|] eqn:E4;
      [|discriminate].
    apply pack_field_H_inv in E4 as (c & [= <-] & Hc & ->).
    cbn [rbind app].
    assert (Hw : wf_bytes [slave_id; 3; register_addr / 256;
                           register_addr mod 256; count / 256; count mod 256])
      by wf_frame.
    rewrite pack_field_H_le by (apply calculate_crc16_word16, Hw).
    cbn [rbind app]. intros [= <-].
    split; [exact Hs|]. split; [exact Ha|]. eexists. split; [|split].
    + left. repeat split; [exact (proj1 Hc) | exact (proj2 Hc)].
    + exact Hw.
    + reflexivity.
  - apply Z.eqb_eq in H6. subst function_code.
    destruct (pack_field BigEndian (B (Some slave_id))) as [l1|] eqn:E1;
      [|discriminate].
    apply pack_field_B_inv in E1 as (b & [= <-] & Hs & ->).
    rewrite pack_field_B by (unfold is_byte; lia).
    destruct (pack_field BigEndian (H (Some register_addr))) as [l3|] eqn:E3;
      [|discriminate].
    apply pack_field_H_inv in E3 as (a & [= <-] & Ha & ->).
    destruct (pack_field BigEndian (H value)) as [l4|] eqn:E4; [|discriminate].
    apply pack_field_H_inv in E4 as (v & -> & Hv & ->).
    cbn [rbind app].
    assert (Hw : wf_bytes [slave_id; 6; register_addr / 256;
                           register_addr mod 256; v / 256; v mod 256])
      by wf_frame.
    rewrite pack_field_H_le by (apply calculate_crc16_word16, Hw).
    cbn [rbind app]. intros [= <-].
    split; [exact Hs|]. split; [exact Ha|]. eexists. split; [|split].
    + right. left. split; [reflexivity|]. exists v. repeat split;
        [exact (proj1 Hv) | exact (proj2 Hv)].
    + exact Hw.
    + reflexivity.
  - apply Z.eqb_eq in H16. subst function_code.
    destruct (pack_field BigEndian (B (Some slave_id))) as [l1|] eqn:E1;
      [|discriminate].
    apply pack_field_B_inv in E1 as (b & [= <-] & Hs & ->).
    rewrite !pack_field_B by (unfold is_byte; lia).
    destruct (pack_field BigEndian (H (Some register_addr))) as [l3|] eqn:E3;
      [|discriminate].
    apply pack_field_H_inv in E3 as (a & [= <-] & Ha & ->).
    rewrite (pack_field_H_be 1) by (unfold is_word16; lia).
    change (1 / 256) with 0. change (1 mod 256) with 1.
    destruct (pack_field BigEndian (H value)) as [l4|] eqn:E4; [|discriminate].
    apply pack_field_H_inv in E4 as (v & -> & Hv & ->).
    cbn [rbind app].
    assert (Hw : wf_bytes [slave_id; 16; register_addr / 256;
                           register_addr mod 256; 0; 1; 2; v / 256; v mod 256])
      by wf_frame.
    rewrite pack_field_H_le by (apply calculate_crc16_word16, Hw).
    cbn [rbind app]. intros [= <-].
    split; [exact Hs|]. split; [exact Ha|]. eexists. split; [|split].
    + right. right. split; [reflexivity|]. exists v. repeat split;
        [exact (proj1 Hv) | exact (proj2 Hv)].
    + exact Hw.
    + reflexivity.
Qed.

Lemma pack_field_raises (e : endian) (f : field) (x : exn) :
  pack_field e f = Raise x -> x = StructError.
Proof.
  destruct f as [[b|]|[w|]]; cbn [pack_field];
    repeat match goal with
           | |- context [if ?c then _ else _] => destruct c
           end; intros [= <-] || discriminate; reflexivity.
Qed.

Lemma struct_pack_raises (e : endian) (fs : list field) (x : exn) :
  struct_pack e fs = Raise x -> x = StructError.
Proof.
  induction fs as [|f fs IH]; cbn [struct_pack]; [discriminate|].
  destruct (pack_field e f) as [l|y] eqn:E; cbn [rbind].
  - destruct (struct_pack e fs) as [l'|y]; cbn [rbind]; [discriminate|].
    intros [= <-]. apply IH. reflexivity.
  - intros [= <-]. eapply pack_field_raises, E.
Qed.

Lemma build_request_raises (slave_id function_code register_addr : Z)
    (value : option Z) (count : Z) (x : exn) :
  build_request slave_id function_code register_addr value count = Raise x ->
  (x = ValueError /\ function_code <> 3 /\ function_code <> 6
   /\ function_code <> 16)
  \/ (x = StructError
      /\ (function_code = 3 \/ function_code = 6 \/ function_code = 16)).
Proof.
  unfold build_request.
  destruct (function_code =? 3) eqn:H3;
    [|destruct (function_code =? 6) eqn:H6;
      [|destruct (function_code =? 16) eqn:H16]].
  4: { intros [= <-]. left. apply Z.eqb_neq in H3, H6, H16. auto. }
  all: intros Hr; right; split;
    [|first [apply Z.eqb_eq in H3 | apply Z.eqb_eq in H6 | apply Z.eqb_eq in H16];
      auto].
  all: match type of Hr with
       | rbind ?p _ = _ => destruct p as [data|y] eqn:E; cbn [rbind] in Hr
       end.
  all: try (injection Hr as <-; eapply struct_pack_raises, E).
  all: match type of Hr with
       | rbind ?p _ = _ => destruct p as [tl|y] eqn:E'; cbn [rbind] in Hr
       end; [discriminate|].
  all: injection Hr as <-; eapply struct_pack_raises, E'.
Qed.

(** X2: [build_request] returns a frame exactly when the function code is
    3, 6 or 16, the slave id fits a byte, the address fits 16 bits and the
    payload (the count for 3, the value for 6 and 16) is an integer that
    fits 16 bits.  It raises [ValueError] exactly for the other function
    codes, and [struct.error] in every remaining case; nothing else. *)
Theorem build_request_outcomes (slave_id function_code register_addr : Z)
    (value : option Z) (count : Z) :
  ((exists frame,
       build_request slave_id function_code register_addr value count = Ok frame)
   <-> is_byte slave_id /\ is_word16 register_addr
       /\ ((function_code = 3 /\ is_word16 count)
           \/ ((function_code = 6 \/ function_code = 16)
               /\ exists v, value = Some v /\ is_word16 v)))
  /\ (build_request slave_id function_code register_addr value count
      = Raise ValueError
      <-> function_code <> 3 /\ function_code <> 6 /\ function_code <> 16)
  /\ (forall x,
        build_request slave_id function_code register_addr value count = Raise x ->
        x = ValueError \/ x = StructError).
Proof.
  split; [|split].
  - split.
    + intros [frame Hf].
      destruct (build_request_inv _ _ _ _ _ _ Hf) as (Hs & Ha & data & Hfields & _).
      split; [exact Hs|]. split; [exact Ha|].
      destruct Hfields as [(-> & Hc & _) | [(-> & v & -> & Hv & _)
                                          | (-> & v & -> & Hv & _)]].
      * left. auto.
      * right. split; [auto|]. exists v. auto.
      * right. split; [auto|]. exists v. auto.
    + intros (Hs & Ha & [[-> Hc] | [[-> | ->] (v & -> & Hv)]]); eexists.
      * apply build_request_3; assumption.
      * apply build_request_6; assumption.
      * apply build_request_16; assumption.
  - split.
    + intros Hr. apply build_request_raises in Hr as [(_ & H) | (Hx & _)];
        [exact H | discriminate Hx].
    + intros (H3 & H6 & H16). apply build_request_unsupported; assumption.
  - intros x Hr. apply build_request_raises in Hr as [(-> & _) | (-> & _)]; auto.
Qed.

Lemma length_with_crc (data : bytes) :
  length (with_crc data) = (length data + 2)%nat.
Proof. unfold with_crc. rewrite length_app. reflexivity. Qed.

(** X3: every frame [build_request] returns is made of bytes, is 8 bytes
    long (11 for function 16), starts with the slave id and the function
    code followed by the address in big-endian order, and carries a CRC that
    the check of [parse_response] accepts. *)
Theorem build_request_frame_shape (slave_id function_code register_addr : Z)
    (value : option Z) (count : Z) (frame : bytes) :
  build_request slave_id function_code register_addr value count = Ok frame ->
  wf_bytes frame
  /\ length frame = (if function_code =? 16 then 11%nat else 8%nat)
  /\ frame !! 0%nat = Some slave_id
  /\ frame !! 1%nat = Some function_code
  /\ be16_at 2 frame = register_addr
  /\ crc_matches frame = Ok true.
Proof.
  intros Hf.
  destruct (build_request_inv _ _ _ _ _ _ Hf) as (Hs & Ha & data & Hfields & Hw & ->).
  split.
  { unfold with_crc. apply Forall_app_2; [exact Hw|].
    pose proof (calculate_crc16_word16 data Hw).
    repeat (apply Forall_cons_2;
            [first [apply hi_byte_range; assumption | apply lo_byte_range]|]).
    apply Forall_nil_2. }
  split.
  { rewrite length_with_crc.
    destruct Hfields as [(-> & _ & ->) | [(-> & v & _ & _ & ->)
                                        | (-> & v & _ & _ & ->)]]; reflexivity. }
  assert (Haddr : register_addr / 256 * 256 + register_addr mod 256 = register_addr)
    by apply word_join.
  split; [|split; [|split; [|apply crc_matches_with_crc, Hw]]];
    destruct Hfields as [(-> & _ & ->) | [(-> & v & _ & _ & ->)
                                        | (-> & v & _ & _ & ->)]];
    first [reflexivity | exact Haddr].
Qed.

Lemma build_request_frame_shape_witness :
  build_request 1 6 0x0040 (Some 1) 1
  = Ok [0x01; 0x06; 0x00; 0x40; 0x00; 0x01; 0x49; 0xDE]
  /\ length [0x01; 0x06; 0x00; 0x40; 0x00; 0x01; 0x49; 0xDE] = 8%nat
  /\ crc_matches [0x01; 0x06; 0x00; 0x40; 0x00; 0x01; 0x49; 0xDE] = Ok true.
Proof.
  assert (Hf : build_request 1 6 0x0040 (Some 1) 1
               = Ok [0x01; 0x06; 0x00; 0x40; 0x00; 0x01; 0x49; 0xDE])
    by reflexivity.
  split; [exact Hf|].
  destruct (build_request_frame_shape _ _ _ _ _ _ Hf) as (_ & Hl & _ & _ & _ & Hc).
  split; [exact Hl | exact Hc].
Defined.

(** X1: the CRC of a sequence followed by its own CRC, low byte first, is
    zero; so the CRC of every frame [build_request] returns is zero. *)
Theorem sealed_frame_residue (data : bytes) :
  wf_bytes data ->
  calculate_crc16
    (data ++ [calculate_crc16 data mod 256; calculate_crc16 data / 256]) = 0
  /\ (forall slave_id function_code register_addr value count frame,
        build_request slave_id function_code register_addr value count = Ok frame ->
        calculate_crc16 frame = 0).
Proof.
  intros Hw. split; [apply (crc_of_with_crc data Hw)|].
  intros s fc a v n frame Hf.
  destruct (build_request_inv _ _ _ _ _ _ Hf) as (_ & _ & d & _ & Hd & ->).
  apply crc_of_with_crc, Hd.
Qed.

Lemma sealed_frame_residue_witness :
  wf_bytes [0x01; 0x03; 0x02; 0x00; 0x07]
  /\ calculate_crc16 [0x01; 0x03; 0x02; 0x00; 0x07; 0xF9; 0x86] = 0.
Proof.
  assert (Hw : wf_bytes [0x01; 0x03; 0x02; 0x00; 0x07]) by wf_frame.
  split; [exact Hw|].
  exact (proj1 (sealed_frame_residue _ Hw)).
Defined.

Lemma with_crc_inj (d d' : bytes) : with_crc d = with_crc d' -> d = d'.
Proof.
  unfold with_crc. intros Heq.
  apply app_inj_2 in Heq as [Hd _]; [exact Hd | reflexivity].
Qed.

Lemma word_split_inj (a a' : Z) :
  a / 256 = a' / 256 -> a mod 256 = a' mod 256 -> a = a'.
Proof. intros Hh Hl. rewrite <- (word_join a), <- (word_join a'). congruence. Qed.

(** X4: a frame tells its request: two calls of [build_request] that return
    the same frame were given the same slave id, function code and address,
    the same count for function 3 and the same value for functions 6 and
    16. *)
Theorem build_request_injective
    (slave_id function_code register_addr : Z) (value : option Z) (count : Z)
    (slave_id' function_code' register_addr' : Z) (value' : option Z)
    (count' : Z) (frame : bytes) :
  build_request slave_id function_code register_addr value count = Ok frame ->
  build_request slave_id' function_code' register_addr' value' count' = Ok frame ->
  slave_id = slave_id' /\ function_code = function_code'
  /\ register_addr = register_addr'
  /\ (function_code = 3 -> count = count')
  /\ (function_code <> 3 -> value = value').
Proof.
  intros Hf Hf'.
  destruct (build_request_inv _ _ _ _ _ _ Hf) as (_ & _ & d & Hfields & _ & ->).
  destruct (build_request_inv _ _ _ _ _ _ Hf') as (_ & _ & d' & Hfields' & _ & Heq).
  apply with_crc_inj in Heq. subst d'.
  destruct Hfields as [(-> & Hc & ->) | [(-> & v & -> & Hv & ->)
                                       | (-> & v & -> & Hv & ->)]];
    destruct Hfields' as [(-> & Hc' & Hd) | [(-> & v' & -> & Hv' & Hd)
                                           | (-> & v' & -> & Hv' & Hd)]];
    try discriminate Hd; injection Hd as ? ? ? ? ?; subst.
  - pose proof (word_split_inj register_addr register_addr' ltac:(assumption)
                  ltac:(assumption)).
    pose proof (word_split_inj count count' ltac:(assumption) ltac:(assumption)).
    repeat split; auto; intros; congruence.
  - pose proof (word_split_inj register_addr register_addr' ltac:(assumption)
                  ltac:(assumption)).
    pose proof (word_split_inj v v' ltac:(assumption) ltac:(assumption)).
    repeat split; auto; intros; congruence.
  - pose proof (word_split_inj register_addr register_addr' ltac:(assumption)
                  ltac:(assumption)).
    pose proof (word_split_inj v v' ltac:(assumption) ltac:(assumption)).
    repeat split; auto; intros; congruence.
Qed.

Lemma build_request_injective_witness :
  build_request 1 6 0x0040 (Some 1) 1
  = Ok [0x01; 0x06; 0x00; 0x40; 0x00; 0x01; 0x49; 0xDE]
  /\ build_request 1 6 0x0040 (Some 1) 7
     = Ok [0x01; 0x06; 0x00; 0x40; 0x00; 0x01; 0x49; 0xDE]
  /\ Some 1 = Some 1.
Proof.
  assert (Hf : build_request 1 6 0x0040 (Some 1) 1
               = Ok [0x01; 0x06; 0x00; 0x40; 0x00; 0x01; 0x49; 0xDE])
    by reflexivity.
  assert (Hf' : build_request 1 6 0x0040 (Some 1) 7
                = Ok [0x01; 0x06; 0x00; 0x40; 0x00; 0x01; 0x49; 0xDE])
    by reflexivity.
  split; [exact Hf|]. split; [exact Hf'|].
  destruct (build_request_injective _ _ _ _ _ _ _ _ _ _ _ Hf Hf')
    as (_ & _ & _ & _ & Hv).
  apply Hv. lia.
Defined.

(** *** Decoding sealed replies *)

Lemma parse_response_quiet (response : bytes) :
  crc_matches response = Ok true -> trace_of (parse_response response) = [].
Proof.
  intros Hm. destruct (crc_matches_inv response Hm) as [Hlen Hcrc].
  unfold parse_response.
  destruct (length response <? 5)%nat eqn:H5; [reflexivity|].
  apply Nat.ltb_ge in H5.
  rewrite slice_last_two by lia. unfold slice_but_last.
  cbn [struct_unpack_H lift bind].
  fold (le16_at (length response - 2) response).
  rewrite Hcrc, Z.eqb_refl. cbn [negb].
  rewrite index_nth by lia. cbn [lift bind].
  destruct (nth 1 response 0 =? 3).
  - destruct (7 <=? length response)%nat eqn:H7; [|reflexivity].
    apply Nat.leb_le in H7. unfold slice. change (5 - 3)%nat with 2%nat.
    rewrite take2_drop by lia. reflexivity.
  - destruct (nth 1 response 0 =? 6); [|reflexivity].
    destruct (8 <=? length response)%nat eqn:H8; [|reflexivity].
    apply Nat.leb_le in H8. unfold slice. change (6 - 4)%nat with 2%nat.
    rewrite take2_drop by lia. reflexivity.
Qed.

Lemma nth_with_crc (data : bytes) (i : nat) :
  (i < length data)%nat -> nth i (with_crc data) 0 = nth i data 0.
Proof. intros Hi. unfold with_crc. apply List.app_nth1, Hi. Qed.

Lemma parse_response_spec_sealed (data : bytes) :
  wf_bytes data -> (3 <= length data)%nat ->
  parse_response_spec (with_crc data)
  = if (nth 1 data 0 =? 3) && (5 <=? length data)%nat then Some (be16_at 3 data)
    else if (nth 1 data 0 =? 6) && (6 <=? length data)%nat
         then Some (be16_at 4 data)
         else None.
Proof.
  intros Hw Hlen.
  destruct (crc_matches_inv _ (crc_matches_with_crc data Hw)) as [_ Hcrc].
  unfold parse_response_spec. rewrite Hcrc, Z.eqb_refl. cbn [negb].
  rewrite length_with_crc.
  rewrite (proj2 (Nat.ltb_ge (length data + 2) 5)) by lia.
  rewrite nth_with_crc by lia.
  replace (7 <=? length data + 2)%nat with (5 <=? length data)%nat
    by (destruct (Nat.leb_spec 5 (length data));
        [symmetry; apply Nat.leb_le | symmetry; apply Nat.leb_gt]; lia).
  replace (8 <=? length data + 2)%nat with (6 <=? length data)%nat
    by (destruct (Nat.leb_spec 6 (length data));
        [symmetry; apply Nat.leb_le | symmetry; apply Nat.leb_gt]; lia).
  destruct (nth 1 data 0 =? 3); cbn [andb].
  - destruct (5 <=? length data)%nat eqn:H5.
    + apply Nat.leb_le in H5. unfold be16_at. rewrite !nth_with_crc by lia.
      reflexivity.
    + destruct (nth 1 data 0 =? 6); cbn [andb]; [|reflexivity].
      destruct (6 <=? length data)%nat eqn:H6; [|reflexivity].
      apply Nat.leb_le in H6. apply Nat.leb_gt in H5. lia.
  - destruct (nth 1 data 0 =? 6); cbn [andb]; [|reflexivity].
    destruct (6 <=? length data)%nat eqn:H6; [|reflexivity].
    apply Nat.leb_le in H6. unfold be16_at. rewrite !nth_with_crc by lia.
    reflexivity.
Qed.

Lemma parse_response_sealed (data : bytes) :
  wf_bytes data -> (3 <= length data)%nat ->
  parse_response (with_crc data)
  = ret (if (nth 1 data 0 =? 3) && (5 <=? length data)%nat
         then Some (be16_at 3 data)
         else if (nth 1 data 0 =? 6) && (6 <=? length data)%nat
              then Some (be16_at 4 data)
              else None).
Proof.
  intros Hw Hlen.
  rewrite (parse_response_eq (with_crc data)).
  rewrite parse_response_quiet by (apply crc_matches_with_crc, Hw).
  rewrite parse_response_spec_sealed by assumption. reflexivity.
Qed.

(** X5: a reply sealed with the right CRC decodes without a log record,
    whatever its slave address and whatever its third byte: to the
    big-endian value at bytes 3 and 4 when byte 1 is 3 and at least five
    bytes precede the CRC, to the value at bytes 4 and 5 when byte 1 is 6
    and at least six bytes precede it, and to no value otherwise.  The
    ordinary read reply slave, 3, 2, hi, lo gives 256 * hi + lo. *)
Theorem sealed_reply_decoding (data : bytes) :
  wf_bytes data -> (3 <= length data)%nat ->
  parse_response
    (data ++ [calculate_crc16 data mod 256; calculate_crc16 data / 256])
  = ret (if (nth 1 data 0 =? 3) && (5 <=? length data)%nat
         then Some (nth 3 data 0 * 256 + nth 4 data 0)
         else if (nth 1 data 0 =? 6) && (6 <=? length data)%nat
              then Some (nth 4 data 0 * 256 + nth 5 data 0)
              else None).
Proof. intros Hw Hlen. apply (parse_response_sealed data Hw Hlen). Qed.

Lemma sealed_reply_decoding_witness :
  wf_bytes [0x11; 0x03; 0x02; 0x12; 0x34]
  /\ (3 <= length [0x11; 0x03; 0x02; 0x12; 0x34])%nat
  /\ parse_response [0x11; 0x03; 0x02; 0x12; 0x34; 0x74; 0xF0] = ret (Some 0x1234).
Proof.
  assert (Hw : wf_bytes [0x11; 0x03; 0x02; 0x12; 0x34]) by wf_frame.
  assert (Hl : (3 <= length [0x11; 0x03; 0x02; 0x12; 0x34])%nat) by (simpl; lia).
  split; [exact Hw|]. split; [exact Hl|].
  exact (sealed_reply_decoding _ Hw Hl).
Defined.

(** X6: of the frames [build_request] makes, only the function 6 frame
    parses back to its value.  The function 3 request, read back as if it
    were a reply, decodes to the low address byte and the high count byte,
    256 * (addr mod 256) + count / 256; the function 16 frame decodes to no
    value. *)
Theorem request_frames_read_back (slave_id register_addr value count : Z) :
  is_byte slave_id -> is_word16 register_addr ->
  is_word16 value -> is_word16 count ->
  (exists frame : bytes,
      build_request slave_id 3 register_addr (Some value) count = Ok frame
      /\ parse_response frame
         = ret (Some (register_addr mod 256 * 256 + count / 256)))
  /\ (exists frame : bytes,
        build_request slave_id 16 register_addr (Some value) count = Ok frame
        /\ parse_response frame = ret None).
Proof.
  intros Hs Ha Hv Hc. split.
  - eexists. split; [apply build_request_3; assumption|].
    rewrite parse_response_sealed; [reflexivity | wf_frame | simpl; lia].
  - eexists. split; [apply build_request_16; assumption|].
    rewrite parse_response_sealed; [reflexivity | wf_frame | simpl; lia].
Qed.

Lemma request_frames_read_back_witness :
  is_byte 1 /\ is_word16 0x0050 /\ is_word16 0 /\ is_word16 1
  /\ parse_response [0x01; 0x03; 0x00; 0x50; 0x00; 0x01; 0x84; 0x1B]
     = ret (Some 0x5000).
Proof.
  assert (Hs : is_byte 1) by (unfold is_byte; lia).
  assert (Ha : is_word16 0x0050) by (unfold is_word16; lia).
  assert (Hv : is_word16 0) by (unfold is_word16; lia).
  assert (Hc : is_word16 1) by (unfold is_word16; lia).
  repeat (split; [assumption|]).
  destruct (request_frames_read_back 1 0x0050 0 1 Hs Ha Hv Hc)
    as [(frame & Hf & Hp) _].
  assert (frame = [0x01; 0x03; 0x00; 0x50; 0x00; 0x01; 0x84; 0x1B]) as <-
    by (cut (Ok frame = Ok [0x01; 0x03; 0x00; 0x50; 0x00; 0x01; 0x84; 0x1B]);
        [congruence | rewrite <- Hf; reflexivity]).
  exact Hp.
Defined.

End CodecMore.

(** ** More about the Modbus engine *)

Section EngineMore.

#[local] Arguments parse_response : simpl never.
#[local] Arguments build_request : simpl never.
#[local] Arguments take : simpl never.

Ltac wf_frame :=
  unfold wf_bytes;
  repeat (apply Forall_cons_2;
          [first [ assumption
                 | apply hi_byte_range; assumption
                 | apply lo_byte_range
                 | unfold is_byte; lia ] |]);
  apply Forall_nil_2.

Lemma take_short (n : nat) (l : bytes) : (length l <= n)%nat -> take n l = l.
Proof. apply take_ge. Qed.

(** X7: on a connected session, a device that answers a read with the
    ordinary reply slave, 3, 2, hi, lo and its CRC makes [read_register]
    return 256 * hi + lo, after one write, the settling delay and one read.
    The slave address of the reply is not compared with the session's. *)
Theorem read_register_roundtrip (dev : device) (self : Modbus.controller)
    (register_name : string) (reply_slave v : Z) :
  Modbus.is_connected self = true ->
  Modbus.serial_conn self = Some {| is_open := true |} ->
  register_name ∈ register_names ->
  is_byte (Modbus.slave_id self) -> is_byte reply_slave -> is_word16 v ->
  (forall request, dev_write dev request = Ok tt) ->
  (forall request,
      dev_pending dev request
      = Ok ([reply_slave; 3; 2; v / 256; v mod 256]
            ++ [calculate_crc16 [reply_slave; 3; 2; v / 256; v mod 256] mod 256;
                calculate_crc16 [reply_slave; 3; 2; v / 256; v mod 256] / 256])) ->
  exists (register_addr : Z) (request : bytes),
    Modbus.REGISTERS !! register_name = Some register_addr
    /\ build_request (Modbus.slave_id self) 3 register_addr None 1 = Ok request
    /\ Modbus.read_register dev self register_name
       = ([SerialWrite request;
           Log DEBUG "Sent Modbus read request for {}" [AStr register_name];
           Sleep 50; SerialRead 256;
           Log DEBUG "Read {}: {}" [AStr register_name; AOptInt (Some v)]],
          Ok (Some v)).
Proof.
  intros Hc Hch Hin Hs Hrs Hv Hw Hp.
  destruct (known_register register_name Hin) as (addr & Hl & Hreg & Ha).
  assert (Hreq : build_request (Modbus.slave_id self) 3 addr None 1
                 = Ok (with_crc [Modbus.slave_id self; 3; addr / 256; addr mod 256;
                                 1 / 256; 1 mod 256]))
    by (apply build_request_3; unfold is_word16; try assumption; lia).
  exists addr. eexists. split; [exact Hreg|]. split; [exact Hreq|].
  rewrite (read_register_exchange dev self register_name addr Hc Hch Hl _ _
             Hreq (Hw _) (Hp _)).
  fold (with_crc [reply_slave; 3; 2; v / 256; v mod 256]).
  assert (Hwf : wf_bytes [reply_slave; 3; 2; v / 256; v mod 256]) by wf_frame.
  rewrite take_short by (rewrite length_with_crc; simpl; lia).
  pose proof (parse_response_sealed _ Hwf ltac:(simpl; lia)) as Hparse.
  cbn [nth Z.eqb Pos.eqb andb length Nat.leb] in Hparse.
  unfold be16_at in Hparse. cbn [nth] in Hparse. rewrite word_join in Hparse.
  pose proof (parse_response_refines
                (with_crc [reply_slave; 3; 2; v / 256; v mod 256])) as Hspec.
  rewrite Hparse in Hspec. injection Hspec as Hspec.
  remember (with_crc [reply_slave; 3; 2; v / 256; v mod 256]) as reply eqn:Hr.
  destruct reply as [|b rest]; [discriminate Hr|].
  cbv beta iota zeta. rewrite Hparse, <- Hspec. reflexivity.
Qed.

Lemma read_register_roundtrip_witness :
  Modbus.is_connected (connected_session 1) = true
  /\ Modbus.serial_conn (connected_session 1) = Some {| is_open := true |}
  /\ ("STATUS" ∈ register_names)
  /\ is_byte (Modbus.slave_id (connected_session 1))
  /\ is_byte 9 /\ is_word16 0x1234
  /\ value_of (Modbus.read_register
                 (replying (fun _ => [0x09; 0x03; 0x02; 0x12; 0x34; 0x54; 0xF2]))
                 (connected_session 1) "STATUS") = Ok (Some 0x1234).
Proof.
  assert (Hin : "STATUS" ∈ register_names).
  { unfold register_names. do 5 apply list_elem_of_further. apply list_elem_of_here. }
  assert (Hs : is_byte (Modbus.slave_id (connected_session 1)))
    by (unfold is_byte; simpl; lia).
  assert (Hrs : is_byte 9) by (unfold is_byte; lia).
  assert (Hv : is_word16 0x1234) by (unfold is_word16; lia).
  split; [reflexivity|]. split; [reflexivity|]. split; [exact Hin|].
  split; [exact Hs|]. split; [exact Hrs|]. split; [exact Hv|].
  destruct (read_register_roundtrip
              (replying (fun _ => [0x09; 0x03; 0x02; 0x12; 0x34; 0x54; 0xF2]))
              (connected_session 1) "STATUS" 9 0x1234
              eq_refl eq_refl Hin Hs Hrs Hv (fun _ => eq_refl) (fun _ => eq_refl))
    as (addr & request & _ & _ & Hread).
  rewrite Hread. reflexivity.
Defined.

Lemma write_register_sealed_reply (dev : device) (self : Modbus.controller)
    (register_name : string) (register_addr value : Z) (request data : bytes) :
  Modbus.is_connected self = true ->
  Modbus.serial_conn self = Some {| is_open := true |} ->
  Modbus.lookup_register register_name = Some register_addr ->
  build_request (Modbus.slave_id self) 6 register_addr (Some value) 1 = Ok request ->
  dev_write dev request = Ok tt ->
  dev_pending dev request = Ok (with_crc data) ->
  wf_bytes data -> length data = 6%nat -> nth 1 data 0 = 6 ->
  value_of (Modbus.write_register dev self register_name value) = Ok true.
Proof.
  intros Hc Hch Hl Hreq Hw Hp Hwf Hlen H6.
  rewrite (write_register_exchange dev self register_name register_addr Hc Hch Hl
             value request _ Hreq Hw Hp).
  unfold value_of. cbn [snd].
  rewrite take_short by (rewrite length_with_crc; lia).
  pose proof (parse_response_spec_sealed data Hwf ltac:(lia)) as Hsp.
  rewrite H6, Hlen in Hsp. cbn [Z.eqb Pos.eqb andb Nat.leb] in Hsp.
  remember (with_crc data) as reply eqn:Hr.
  destruct reply as [|b rest].
  - apply (f_equal (@length Z)) in Hr. rewrite length_with_crc in Hr.
    simpl in Hr. lia.
  - cbv beta iota zeta. rewrite Hsp. reflexivity.
Qed.

(** X8: on a connected session [write_register] returns [True] exactly
    when the bytes read back decode to some value; it does not compare them
    with the request.  So the echo of the request is accepted, and so is a
    well-sealed function 6 frame for any other slave, address and value. *)
Theorem write_register_acceptance (self : Modbus.controller)
    (register_name : string) (value : Z) :
  Modbus.is_connected self = true ->
  Modbus.serial_conn self = Some {| is_open := true |} ->
  register_name ∈ register_names ->
  is_byte (Modbus.slave_id self) -> is_word16 value ->
  (forall (dev : device) (pending : bytes),
      (forall request, dev_write dev request = Ok tt) ->
      (forall request, dev_pending dev request = Ok pending) ->
      (value_of (Modbus.write_register dev self register_name value) = Ok true
       <-> take 256 pending <> []
           /\ exists v, value_of (parse_response (take 256 pending)) = Ok (Some v)))
  /\ value_of (Modbus.write_register (replying (fun request => request)) self
                 register_name value) = Ok true
  /\ (forall s' a' v' : Z,
        is_byte s' -> is_word16 a' -> is_word16 v' ->
        value_of (Modbus.write_register
                    (replying (fun _ =>
                       [s'; 6; a' / 256; a' mod 256; v' / 256; v' mod 256]
                       ++ [calculate_crc16 [s'; 6; a' / 256; a' mod 256;
                                            v' / 256; v' mod 256] mod 256;
                           calculate_crc16 [s'; 6; a' / 256; a' mod 256;
                                            v' / 256; v' mod 256] / 256]))
                    self register_name value) = Ok true).
Proof.
  intros Hc Hch Hin Hs Hv.
  destruct (known_register register_name Hin) as (addr & Hl & Hreg & Ha).
  assert (Hreq : build_request (Modbus.slave_id self) 6 addr (Some value) 1
                 = Ok (with_crc [Modbus.slave_id self; 6; addr / 256; addr mod 256;
                                 value / 256; value mod 256]))
    by (apply build_request_6; unfold is_word16; try assumption; lia).
  assert (Haw : is_word16 addr) by (unfold is_word16; lia).
  assert (Hsealed : forall s' a' v' : Z,
             is_byte s' -> is_word16 a' -> is_word16 v' ->
             value_of (Modbus.write_register
                         (replying (fun _ =>
                            with_crc [s'; 6; a' / 256; a' mod 256;
                                      v' / 256; v' mod 256]))
                         self register_name value) = Ok true).
  { intros s' a' v' Hs' Ha' Hv'.
    eapply write_register_sealed_reply
      with (register_addr := addr)
           (data := [s'; 6; a' / 256; a' mod 256; v' / 256; v' mod 256]);
      [exact Hc | exact Hch | exact Hl | exact Hreq | reflexivity | reflexivity
      | wf_frame | reflexivity | reflexivity]. }
  split; [|split].
  - intros dev pending Hw Hp.
    rewrite (write_register_exchange dev self register_name addr Hc Hch Hl value _
               pending Hreq (Hw _) (Hp _)).
    unfold value_of. cbn [snd].
    destruct (take 256 pending) as [|b rest] eqn:Ht.
    + split; [discriminate | intros [Hne _]; contradiction].
    + rewrite (parse_response_eq (b :: rest)). cbn [snd].
      destruct (parse_response_spec (b :: rest)) as [v|].
      * split; [intros _; split; [discriminate | eauto] | reflexivity].
      * split; [discriminate | intros (_ & v & [=])].
  - eapply write_register_sealed_reply
      with (register_addr := addr)
           (data := [Modbus.slave_id self; 6; addr / 256; addr mod 256;
                     value / 256; value mod 256]);
      [exact Hc | exact Hch | exact Hl | exact Hreq | reflexivity | reflexivity
      | wf_frame | reflexivity | reflexivity].
  - exact Hsealed.
Qed.

Lemma write_register_acceptance_witness :
  Modbus.is_connected (connected_session 1) = true
  /\ Modbus.serial_conn (connected_session 1) = Some {| is_open := true |}
  /\ ("START_STOP" ∈ register_names)
  /\ is_byte (Modbus.slave_id (connected_session 1)) /\ is_word16 1
  /\ value_of (Modbus.write_register (replying (fun request => request))
                 (connected_session 1) "START_STOP" 1) = Ok true.
Proof.
  assert (Hin : "START_STOP" ∈ register_names).
  { unfold register_names. do 4 apply list_elem_of_further. apply list_elem_of_here. }
  assert (Hs : is_byte (Modbus.slave_id (connected_session 1)))
    by (unfold is_byte; simpl; lia).
  assert (Hv : is_word16 1) by (unfold is_word16; lia).
  split; [reflexivity|]. split; [reflexivity|]. split; [exact Hin|].
  split; [exact Hs|]. split; [exact Hv|].
  exact (proj1 (proj2 (write_register_acceptance (connected_session 1)
                         "START_STOP" 1 eq_refl eq_refl Hin Hs Hv))).
Defined.

(** *** Never more than one exchange, never an exception *)

Lemma channel_io_parse_tail (response : bytes) (t : list event) :
  channel_io t = [] -> channel_io (trace_of (parse_response response) ++ t) = [].
Proof. intros Ht. rewrite channel_io_app, parse_response_no_io, Ht. reflexivity. Qed.

Lemma read_register_bounded (dev : device) (self : Modbus.controller)
    (register_name : string) :
  (exists o, value_of (Modbus.read_register dev self register_name) = Ok o)
  /\ (channel_io (trace_of (Modbus.read_register dev self register_name)) = []
      \/ exists request,
           channel_io (trace_of (Modbus.read_register dev self register_name))
           = [SerialWrite request]
           \/ channel_io (trace_of (Modbus.read_register dev self register_name))
              = [SerialWrite request; SerialRead 256]).
Proof.
  unfold Modbus.read_register.
  destruct (Modbus.is_connected self); cbn [negb];
    [|split; [eexists; reflexivity | left; reflexivity]].
  destruct (Modbus.lookup_register register_name) as [addr|];
    [|split; [eexists; reflexivity | left; reflexivity]].
  destruct (build_request (Modbus.slave_id self) 3 addr None 1) as [request|e];
    [|split; [eexists; reflexivity | left; reflexivity]].
  cbn [lift bind].
  destruct (Modbus.serial_conn self) as [[[|]]|];
    [| split; [eexists; reflexivity | left; reflexivity]
     | split; [eexists; reflexivity | left; reflexivity]].
  cbn [serial_write serial_read is_open emit bind lift].
  destruct (dev_write dev request) as [[]|e];
    [|split; [eexists; reflexivity | right; exists request; left; reflexivity]].
  cbn [bind log emit app].
  destruct (dev_pending dev request) as [pending|e];
    [|split; [eexists; reflexivity
             | right; exists request; right; reflexivity]].
  cbn [bind ret app].
  destruct (take 256 pending) as [|b rest];
    [split; [eexists; reflexivity
            | right; exists request; right; reflexivity]|].
  rewrite (parse_response_eq (b :: rest)).
  cbn [bind try_except ret log emit app]. rewrite ?app_nil_r.
  split; [eexists; reflexivity|].
  right. exists request. right.
  unfold trace_of, channel_io. cbn [fst List.filter is_channel_io].
  do 2 f_equal. apply channel_io_parse_tail. reflexivity.
Qed.

Lemma write_register_bounded (dev : device) (self : Modbus.controller)
    (register_name : string) (value : Z) :
  (exists b, value_of (Modbus.write_register dev self register_name value) = Ok b)
  /\ (channel_io (trace_of (Modbus.write_register dev self register_name value)) = []
      \/ exists request,
           channel_io (trace_of (Modbus.write_register dev self register_name value))
           = [SerialWrite request]
           \/ channel_io (trace_of (Modbus.write_register dev self register_name value))
              = [SerialWrite request; SerialRead 256]).
Proof.
  unfold Modbus.write_register.
  destruct (Modbus.is_connected self); cbn [negb];
    [|split; [eexists; reflexivity | left; reflexivity]].
  destruct (Modbus.lookup_register register_name) as [addr|];
    [|split; [eexists; reflexivity | left; reflexivity]].
  destruct (build_request (Modbus.slave_id self) 6 addr (Some value) 1)
    as [request|e];
    [|split; [eexists; reflexivity | left; reflexivity]].
  cbn [lift bind].
  destruct (Modbus.serial_conn self) as [[[|]]|];
    [| split; [eexists; reflexivity | left; reflexivity]
     | split; [eexists; reflexivity | left; reflexivity]].
  cbn [serial_write serial_read is_open emit bind lift].
  destruct (dev_write dev request) as [[]|e];
    [|split; [eexists; reflexivity | right; exists request; left; reflexivity]].
  cbn [bind log emit app].
  destruct (dev_pending dev request) as [pending|e];
    [|split; [eexists; reflexivity
             | right; exists request; right; reflexivity]].
  cbn [bind ret app].
  destruct (take 256 pending) as [|b rest];
    [split; [eexists; reflexivity
            | right; exists request; right; reflexivity]|].
  rewrite (parse_response_eq (b :: rest)).
  destruct (parse_response_spec (b :: rest)) as [v|];
    cbn [bind try_except ret log emit app]; rewrite ?app_nil_r;
    (split; [eexists; reflexivity|]);
    right; exists request; right;
    unfold trace_of, channel_io; cbn [fst List.filter is_channel_io];
    do 2 f_equal.
  - apply channel_io_parse_tail. reflexivity.
  - apply parse_response_no_io.
Qed.

(** X9: whatever the session state, the register name and the behaviour of
    the line, [read_register] and [write_register] raise nothing (every
    exception of the packing, the channel and the parsing is caught) and put
    at most one request on the wire, followed by at most one read of up to
    256 bytes; nothing is retried. *)
Theorem register_access_bounded (dev : device) (self : Modbus.controller)
    (register_name : string) (value : Z) :
  (exists o, value_of (Modbus.read_register dev self register_name) = Ok o)
  /\ (exists b, value_of (Modbus.write_register dev self register_name value) = Ok b)
  /\ (channel_io (trace_of (Modbus.read_register dev self register_name)) = []
      \/ exists request,
           channel_io (trace_of (Modbus.read_register dev self register_name))
           = [SerialWrite request]
           \/ channel_io (trace_of (Modbus.read_register dev self register_name))
              = [SerialWrite request; SerialRead 256])
  /\ (channel_io (trace_of (Modbus.write_register dev self register_name value)) = []
      \/ exists request,
           channel_io (trace_of (Modbus.write_register dev self register_name value))
           = [SerialWrite request]
           \/ channel_io (trace_of (Modbus.write_register dev self register_name value))
              = [SerialWrite request; SerialRead 256]).
Proof.
  destruct (read_register_bounded dev self register_name) as [Hr Hrt].
  destruct (write_register_bounded dev self register_name value) as [Hw Hwt].
  auto.
Qed.

(** *** Linear speed *)

Lemma speed_in_range_finite (speed : spec_float) :
  between (float_of_Z 1) speed (float_of_Z 132000) = true ->
  exists v, int_of_float speed = Ok v.
Proof.
  destruct speed as [s | s | | s m e]; intros Hb.
  - eexists. reflexivity.
  - destruct s; vm_compute in Hb; discriminate Hb.
  - vm_compute in Hb. discriminate Hb.
  - eexists. reflexivity.
Qed.

(** X10: [set_linear_speed] raises nothing for any float: NaN and both
    infinities fail the range test, so [int()] only ever sees a finite
    number, and [write_register] catches the rest.  Outside the range it
    returns [False] with an error record and stays off the wire. *)
Theorem set_linear_speed_total (dev : device) (self : Modbus.controller)
    (speed : spec_float) :
  (exists b, value_of (Modbus.set_linear_speed dev self speed) = Ok b)
  /\ (between (float_of_Z 1) speed (float_of_Z 132000) = false ->
      Modbus.set_linear_speed dev self speed
      = ([Log ERROR "Linear speed {} out of range (1-132000 μm/min)"
            [AFloat speed]], Ok false))
  /\ Modbus.set_linear_speed dev self S754_nan
     = ([Log ERROR "Linear speed {} out of range (1-132000 μm/min)"
           [AFloat S754_nan]], Ok false)
  /\ Modbus.set_linear_speed dev self (S754_infinity false)
     = ([Log ERROR "Linear speed {} out of range (1-132000 μm/min)"
           [AFloat (S754_infinity false)]], Ok false).
Proof.
  split; [|split; [|split]].
  - unfold Modbus.set_linear_speed.
    destruct (between _ speed _) eqn:Hb; cbn [negb]; [|eexists; reflexivity].
    destruct (speed_in_range_finite speed Hb) as [v ->]. cbn [lift bind].
    destruct (write_register_bounded dev self "LINEAR_SPEED" v) as [[b Hv] _].
    unfold value_of in *.
    destruct (Modbus.write_register dev self "LINEAR_SPEED" v) as [t r].
    cbn [snd] in Hv. subst r.
    destruct b; eexists; reflexivity.
  - intros Hb. unfold Modbus.set_linear_speed. rewrite Hb. reflexivity.
  - reflexivity.
  - reflexivity.
Qed.

(** X11: a speed inside the range is truncated by [int()] and written once
    to LINEAR_SPEED (0x0070) when the result fits 16 bits; when it is 65536
    or more, as for 70000, the request cannot be packed: nothing is written,
    an error is logged and [set_linear_speed] returns [False]. *)
Theorem set_linear_speed_wire (dev : device) (self : Modbus.controller)
    (speed : spec_float) (register_value : Z) :
  Modbus.is_connected self = true ->
  Modbus.serial_conn self = Some {| is_open := true |} ->
  is_byte (Modbus.slave_id self) ->
  between (float_of_Z 1) speed (float_of_Z 132000) = true ->
  int_of_float speed = Ok register_value ->
  (is_word16 register_value ->
   List.filter is_write (trace_of (Modbus.set_linear_speed dev self speed))
   = [SerialWrite
        ([Modbus.slave_id self; 6; 0x00; 0x70;
          register_value / 256; register_value mod 256]
         ++ [calculate_crc16 [Modbus.slave_id self; 6; 0x00; 0x70;
                              register_value / 256; register_value mod 256]
             mod 256;
             calculate_crc16 [Modbus.slave_id self; 6; 0x00; 0x70;
                              register_value / 256; register_value mod 256]
             / 256])])
  /\ (65536 <= register_value ->
      Modbus.set_linear_speed dev self speed
      = ([Log ERROR "Error writing register: {}" [AExn StructError]], Ok false)).
Proof.
  intros Hc Hch Hs Hin Hint. unfold Modbus.set_linear_speed.
  rewrite Hin, Hint. cbn [negb lift bind]. split.
  - intros Hv.
    pose proof (write_register_one_write dev self "LINEAR_SPEED" 0x70
                  register_value _ Hc Hch eq_refl
                  (build_request_6 (Modbus.slave_id self) 0x70 register_value 1 Hs
                     ltac:(unfold is_word16; lia) Hv)) as Hone.
    destruct (Modbus.write_register dev self "LINEAR_SPEED" register_value)
      as [t [success|e]]; unfold trace_of in *; cbn [fst] in *.
    + destruct success; cbn [bind log emit ret fst app];
        rewrite ?app_nil_r, ?List.filter_app, Hone; reflexivity.
    + exact Hone.
  - intros Hv.
    rewrite (write_register_unpackable dev self "LINEAR_SPEED" 0x70 Hc eq_refl
               register_value StructError).
    + reflexivity.
    + apply build_request_6_overflow; [unfold is_word16; lia | exact Hv].
Qed.

Lemma set_linear_speed_wire_witness :
  Modbus.is_connected (connected_session 1) = true
  /\ Modbus.serial_conn (connected_session 1) = Some {| is_open := true |}
  /\ is_byte (Modbus.slave_id (connected_session 1))
  /\ between (float_of_Z 1) (float_of_Z 70000) (float_of_Z 132000) = true
  /\ int_of_float (float_of_Z 70000) = Ok 70000
  /\ Modbus.set_linear_speed (replying (fun request => request))
       (connected_session 1) (float_of_Z 70000)
     = ([Log ERROR "Error writing register: {}" [AExn StructError]], Ok false).
Proof.
  assert (Hs : is_byte (Modbus.slave_id (connected_session 1)))
    by (unfold is_byte; simpl; lia).
  assert (Hin : between (float_of_Z 1) (float_of_Z 70000) (float_of_Z 132000) = true)
    by (vm_compute; reflexivity).
  assert (Hint : int_of_float (float_of_Z 70000) = Ok 70000)
    by (vm_compute; reflexivity).
  split; [reflexivity|]. split; [reflexivity|]. split; [exact Hs|].
  split; [exact Hin|]. split; [exact Hint|].
  apply (proj2 (set_linear_speed_wire (replying (fun request => request))
                  (connected_session 1) (float_of_Z 70000) 70000
                  eq_refl eq_refl Hs Hin Hint)).
  lia.
Defined.

(** *** What the operations put on the wire *)

Lemma read_register_one_write (dev : device) (self : Modbus.controller)
    (register_name : string) (register_addr : Z) (request : bytes) :
  Modbus.is_connected self = true ->
  Modbus.serial_conn self = Some {| is_open := true |} ->
  Modbus.lookup_register register_name = Some register_addr ->
  build_request (Modbus.slave_id self) 3 register_addr None 1 = Ok request ->
  List.filter is_write (trace_of (Modbus.read_register dev self register_name))
  = [SerialWrite request].
Proof.
  intros Hc Hch Hl Hreq.
  destruct (dev_write dev request) as [[]|e] eqn:Hw.
  - destruct (dev_pending dev request) as [pending|e] eqn:Hp.
    + rewrite (read_register_exchange dev self register_name register_addr
                 Hc Hch Hl request pending Hreq Hw Hp).
      unfold trace_of. cbn [fst app List.filter is_write]. f_equal.
      destruct (take 256 pending) as [|b rest]; [reflexivity|].
      cbv beta iota zeta. rewrite List.filter_app.
      rewrite (parse_response_no_write (b :: rest)
               : List.filter is_write (fst (parse_response (b :: rest))) = []).
      reflexivity.
    + unfold Modbus.read_register. rewrite Hc, Hl, Hreq, Hch.
      cbn [negb lift bind try_except serial_write serial_read is_open emit log app].
      rewrite Hw, Hp. reflexivity.
  - unfold Modbus.read_register. rewrite Hc, Hl, Hreq, Hch.
    cbn [negb lift bind try_except serial_write serial_read is_open emit log app].
    rewrite Hw. reflexivity.
Qed.

Lemma writes_after_write_register (dev : device) (self : Modbus.controller)
    (register_name : string) (value : Z) (request : bytes)
    (k : bool -> io unit) :
  List.filter is_write (trace_of (Modbus.write_register dev self register_name value))
  = [SerialWrite request] ->
  (forall b, List.filter is_write (trace_of (k b)) = []) ->
  (forall b, exists u, value_of (k b) = Ok u) ->
  List.filter is_write
    (trace_of (success <- Modbus.write_register dev self register_name value ;;
               k success ;;; ret success)%io)
  = [SerialWrite request].
Proof.
  intros Hone Hk Hv. unfold trace_of in *.
  destruct (Modbus.write_register dev self register_name value)
    as [t [success|e]]; [|exact Hone].
  specialize (Hk success). destruct (Hv success) as [u Hu].
  unfold value_of in Hu. cbn [bind fst].
  destruct (k success) as [t' r]. cbn [fst snd] in *.
  subst r. cbn [bind ret fst]. rewrite app_nil_r, List.filter_app, Hone, Hk.
  reflexivity.
Qed.

(** X12: on a connected session each command is one request frame:
    [set_mode] writes the mode's code 1 to 4 to register 0x0001, [start]
    writes 1 and [stop] writes 0 to register 0x0040, and [get_status] reads
    one register at 0x0050; each frame is the fields followed by their
    CRC. *)
Theorem command_frames (dev : device) (self : Modbus.controller) :
  Modbus.is_connected self = true ->
  Modbus.serial_conn self = Some {| is_open := true |} ->
  is_byte (Modbus.slave_id self) ->
  (forall mode,
      List.filter is_write (trace_of (Modbus.set_mode dev self mode))
      = [SerialWrite
           (with_crc [Modbus.slave_id self; 6; 0x00; 0x01; 0x00;
                      match mode with
                      | INFUSION => 1
                      | WITHDRAWAL => 2
                      | INFUSION_WITHDRAWAL => 3
                      | WITHDRAWAL_INFUSION => 4
                      end])])
  /\ List.filter is_write (trace_of (Modbus.start dev self))
     = [SerialWrite (with_crc [Modbus.slave_id self; 6; 0x00; 0x40; 0x00; 0x01])]
  /\ List.filter is_write (trace_of (Modbus.stop dev self))
     = [SerialWrite (with_crc [Modbus.slave_id self; 6; 0x00; 0x40; 0x00; 0x00])]
  /\ List.filter is_write (trace_of (Modbus.get_status dev self))
     = [SerialWrite (with_crc [Modbus.slave_id self; 3; 0x00; 0x50; 0x00; 0x01])].
Proof.
  intros Hc Hch Hs.
  assert (Hwrite : forall name addr value,
             Modbus.lookup_register name = Some addr ->
             is_word16 addr -> is_word16 value ->
             List.filter is_write (trace_of (Modbus.write_register dev self name value))
             = [SerialWrite (with_crc [Modbus.slave_id self; 6; addr / 256;
                                       addr mod 256; value / 256; value mod 256])]).
  { intros name addr value Hl Ha Hv.
    apply (write_register_one_write dev self name addr value _ Hc Hch Hl).
    apply build_request_6; assumption. }
  split; [|split; [|split]].
  - intros mode. unfold Modbus.set_mode.
    destruct mode; cbn [Modbus.mode_values Z.eqb negb];
      (apply writes_after_write_register;
       [ apply (Hwrite "MODE" 1); [reflexivity | | ]; unfold is_word16; lia
       | intros []; reflexivity
       | intros []; eexists; reflexivity ]).
  - unfold Modbus.start. apply writes_after_write_register;
      [ apply (Hwrite "START_STOP" 0x40 1); [reflexivity | | ]; unfold is_word16; lia
      | intros []; reflexivity
      | intros []; eexists; reflexivity ].
  - unfold Modbus.stop. apply writes_after_write_register;
      [ apply (Hwrite "START_STOP" 0x40 0); [reflexivity | | ]; unfold is_word16; lia
      | intros []; reflexivity
      | intros []; eexists; reflexivity ].
  - unfold Modbus.get_status.
    apply (read_register_one_write dev self "STATUS" 0x50 _ Hc Hch eq_refl).
    apply (build_request_3 (Modbus.slave_id self) 0x50 1 None Hs);
      unfold is_word16; lia.
Qed.

Lemma command_frames_witness :
  Modbus.is_connected (connected_session 1) = true
  /\ Modbus.serial_conn (connected_session 1) = Some {| is_open := true |}
  /\ is_byte (Modbus.slave_id (connected_session 1))
  /\ List.filter is_write
       (trace_of (Modbus.stop (replying (fun request => request))
                    (connected_session 1)))
     = [SerialWrite [0x01; 0x06; 0x00; 0x40; 0x00; 0x00; 0x88; 0x1E]].
Proof.
  assert (Hs : is_byte (Modbus.slave_id (connected_session 1)))
    by (unfold is_byte; simpl; lia).
  split; [reflexivity|]. split; [reflexivity|]. split; [exact Hs|].
  destruct (command_frames (replying (fun request => request)) (connected_session 1)
              eq_refl eq_refl Hs) as (_ & _ & Hstop & _).
  rewrite Hstop. reflexivity.
Defined.

(** *** The session over its life *)

Lemma open_serial (conn : Serial) :
  is_open conn = true -> conn = {| is_open := true |}.
Proof. destruct conn as [[|]]; [reflexivity | discriminate]. Qed.

(** X13: in every state a session reaches through [__init__], [connect]
    and [disconnect], in either driver, the flag [is_connected] is set
    exactly when the session holds an open channel; a session that is not
    connected holds no channel or a closed one. *)
Theorem session_invariant :
  (forall self : Modbus.controller,
      Modbus.reachable self ->
      (Modbus.is_connected self = true
       <-> Modbus.serial_conn self = Some {| is_open := true |})
      /\ (Modbus.is_connected self = false -> Modbus.released self))
  /\ (forall self : Cmd.controller,
        Cmd.reachable self ->
        (Cmd.is_connected self = true
         <-> Cmd.serial_conn self = Some {| is_open := true |})
        /\ (Cmd.is_connected self = false -> Cmd.released self)).
Proof.
  split.
  - intros self Hr. apply modbus_reachable_consistent in Hr.
    unfold modbus_consistent, Modbus.released in *.
    destruct (Modbus.serial_conn self) as [conn|].
    + split; [split|].
      * intros Hc. f_equal. apply open_serial. congruence.
      * intros [= ->]. simpl in Hr. congruence.
      * intros Hc. congruence.
    + split; [split|]; [congruence | discriminate | auto].
  - intros self Hr. apply cmd_reachable_consistent in Hr.
    unfold cmd_consistent, Cmd.released in *.
    destruct (Cmd.serial_conn self) as [conn|].
    + split; [split|].
      * intros Hc. f_equal. apply open_serial. congruence.
      * intros [= ->]. simpl in Hr. congruence.
      * intros Hc. congruence.
    + split; [split|]; [congruence | discriminate | auto].
Qed.

(** A second [connect] on a connected session opens the new port and, by
    rebinding [serial_conn], lets the finalizer close the one held so
    far. *)
Example reconnect_closes_replaced :
  trace_of (snd (Modbus.connect (replying (fun r => r)) (connected_session 1)))
  = [SerialOpen; SerialClose;
     Log INFO "Connected to ISPLab02 on {} (Modbus RTU)"
       [AStr "/dev/tty.usbserial"]]
  /\ trace_of (snd (Modbus.connect (replying (fun r => r))
                      (Modbus.__init__ "/dev/tty.usbserial" 9600 1)))
     = [SerialOpen;
        Log INFO "Connected to ISPLab02 on {} (Modbus RTU)"
          [AStr "/dev/tty.usbserial"]].
Proof. split; reflexivity. Qed.

Lemma session_invariant_witness :
  Modbus.reachable
    (fst (Modbus.connect (replying (fun r => r))
            (fst (Modbus.disconnect
                    (fst (Modbus.connect (replying (fun r => r))
                            (Modbus.__init__ "/dev/tty.usbserial" 9600 1)))))))
  /\ Modbus.serial_conn
       (fst (Modbus.connect (replying (fun r => r))
               (fst (Modbus.disconnect
                       (fst (Modbus.connect (replying (fun r => r))
                               (Modbus.__init__ "/dev/tty.usbserial" 9600 1)))))))
     = Some {| is_open := true |}.
Proof.
  assert (Hr : Modbus.reachable
                 (fst (Modbus.connect (replying (fun r => r))
                         (fst (Modbus.disconnect
                                 (fst (Modbus.connect (replying (fun r => r))
                                         (Modbus.__init__ "/dev/tty.usbserial"
                                            9600 1))))))))
    by (apply Modbus.reach_connect, Modbus.reach_disconnect,
          Modbus.reach_connect, Modbus.reach_init).
  split; [exact Hr|].
  destruct session_invariant as [Hm _].
  apply (proj1 (Hm _ Hr)). reflexivity.
Defined.

Lemma send_command_disconnected (dev : device) (self : Cmd.controller)
    (command : string) :
  Cmd.is_connected self = false ->
  Cmd.send_command dev self command
  = ([Log ERROR "Not connected to pump" []], Ok None).
Proof. intros H. unfold Cmd.send_command. rewrite H. reflexivity. Qed.

(** X14: after [disconnect], from any reachable state and in either
    driver, the session can be used without harm: [read_register],
    [write_register] and [send_command] log "Not connected to pump", return
    no value / [False], and touch no channel, closed or not. *)
Theorem use_after_disconnect :
  (forall (dev : device) (self : Modbus.controller) (register_name : string)
          (value : Z),
      Modbus.reachable self ->
      Modbus.read_register dev (fst (Modbus.disconnect self)) register_name
      = ([Log ERROR "Not connected to pump" []], Ok None)
      /\ Modbus.write_register dev (fst (Modbus.disconnect self)) register_name value
         = ([Log ERROR "Not connected to pump" []], Ok false))
  /\ (forall (dev : device) (self : Cmd.controller) (command : string),
        Cmd.reachable self ->
        Cmd.send_command dev (fst (Cmd.disconnect self)) command
        = ([Log ERROR "Not connected to pump" []], Ok None)).
Proof.
  split.
  - intros dev self name value Hr.
    assert (Hd : Modbus.is_connected (fst (Modbus.disconnect self)) = false).
    { apply modbus_reachable_consistent in Hr. revert Hr.
      unfold modbus_consistent, Modbus.disconnect.
      destruct self as [p b s [conn|] [|]]; simpl; auto. }
    rewrite read_register_disconnected, write_register_disconnected by exact Hd.
    split; reflexivity.
  - intros dev self command Hr.
    assert (Hd : Cmd.is_connected (fst (Cmd.disconnect self)) = false).
    { apply cmd_reachable_consistent in Hr. revert Hr.
      unfold cmd_consistent, Cmd.disconnect.
      destruct self as [p b [conn|] [|]]; simpl; auto. }
    apply send_command_disconnected, Hd.
Qed.

Lemma use_after_disconnect_witness :
  Modbus.reachable
    (fst (Modbus.connect (replying (fun r => r))
            (Modbus.__init__ "/dev/tty.usbserial" 9600 1)))
  /\ Modbus.write_register (replying (fun r => r))
       (fst (Modbus.disconnect
               (fst (Modbus.connect (replying (fun r => r))
                       (Modbus.__init__ "/dev/tty.usbserial" 9600 1)))))
       "START_STOP" 0
     = ([Log ERROR "Not connected to pump" []], Ok false).
Proof.
  assert (Hr : Modbus.reachable
                 (fst (Modbus.connect (replying (fun r => r))
                         (Modbus.__init__ "/dev/tty.usbserial" 9600 1))))
    by (apply Modbus.reach_connect, Modbus.reach_init).
  split; [exact Hr|].
  destruct use_after_disconnect as [Hm _].
  exact (proj2 (Hm (replying (fun r => r)) _ "START_STOP" 0 Hr)).
Defined.

End EngineMore.

(** ** The command-string engine *)

Section CommandEngine.

(** *** Termination of a command *)

Lemma substring_past (p t : string) (k : nat) :
  substring (String.length p) k (p +:+ t) = substring 0 k t.
Proof. induction p as [|c p IH]; [reflexivity | exact IH]. Qed.

Lemma substring_all (t : string) : substring 0 (String.length t) t = t.
Proof. induction t as [|c t IH]; [reflexivity|]. simpl. f_equal. exact IH. Qed.

Lemma length_append (p t : string) :
  String.length (p +:+ t) = (String.length p + String.length t)%nat.
Proof.
  induction p as [|c p IH]; [reflexivity|].
  change (String c p +:+ t) with (String c (p +:+ t)). simpl. f_equal. exact IH.
Qed.

Lemma append_empty_r (s : string) : s +:+ "" = s.
Proof.
  induction s as [|c s IH]; [reflexivity|].
  change (String c s +:+ "") with (String c (s +:+ "")). f_equal. exact IH.
Qed.

Lemma endswith_append (p t : string) : endswith (p +:+ t) t = true.
Proof.
  unfold endswith. rewrite length_append.
  replace (String.length p + String.length t - String.length t)%nat
    with (String.length p) by lia.
  rewrite substring_past, substring_all, String.eqb_refl.
  rewrite (proj2 (Nat.leb_le _ _)) by lia. reflexivity.
Qed.

Lemma endswith_split (s t : string) :
  endswith s t = true -> exists p, s = p +:+ t.
Proof.
  unfold endswith. intros H. apply andb_true_iff in H as [Hlen Heq].
  apply Nat.leb_le in Hlen. apply String.eqb_eq in Heq.
  revert Hlen Heq. induction s as [|c s IH]; intros Hlen Heq.
  - simpl in Hlen. destruct t; [exists ""; reflexivity | simpl in Hlen; lia].
  - destruct (Nat.eq_dec (String.length t) (String.length (String c s))) as [E|E].
    + exists "". rewrite E, Nat.sub_diag, substring_all in Heq. exact Heq.
    + simpl in Hlen, E.
      replace (String.length (String c s) - String.length t)%nat
        with (S (String.length s - String.length t)) in Heq by (simpl; lia).
      destruct t as [|d t].
      * exists (String c s). symmetry. apply append_empty_r.
      * cbn [substring] in Heq.
        destruct (IH ltac:(simpl in *; lia) Heq) as [p ->].
        exists (String c p). reflexivity.
Qed.

Lemma terminated_split (command : string) :
  exists p, terminated command = p +:+ CRLF.
Proof.
  unfold terminated. destruct (endswith command CRLF) eqn:E; cbn [negb].
  - apply endswith_split, E.
  - exists command. reflexivity.
Qed.

Lemma terminated_idempotent (command : string) :
  terminated (terminated command) = terminated command.
Proof.
  destruct (terminated_split command) as [p Hp]. rewrite Hp.
  unfold terminated. rewrite endswith_append. reflexivity.
Qed.

Lemma encode_ascii_append (p t : string) (request : bytes) :
  encode_ascii (p +:+ t) = Ok request ->
  exists body tail,
    encode_ascii p = Ok body /\ encode_ascii t = Ok tail /\ request = body ++ tail.
Proof.
  revert request. induction p as [|c p IH]; intros request.
  - intros H. exists [], request. auto.
  - change (String c p +:+ t) with (String c (p +:+ t)). cbn [encode_ascii].
    destruct (Z.of_nat (nat_of_ascii c) <? 128); [|discriminate].
    destruct (encode_ascii (p +:+ t)) as [r|] eqn:E; cbn [rbind]; [|discriminate].
    intros [= <-]. destruct (IH r eq_refl) as (body & tail & -> & Ht & ->).
    exists (Z.of_nat (nat_of_ascii c) :: body), tail. auto.
Qed.

Lemma encode_ascii_range (s : string) (request : bytes) :
  encode_ascii s = Ok request -> Forall (fun b => 0 <= b < 128) request.
Proof.
  revert request. induction s as [|c s IH]; intros request; cbn [encode_ascii].
  - intros [= <-]. constructor.
  - destruct (Z.of_nat (nat_of_ascii c) <? 128) eqn:E; [|discriminate].
    destruct (encode_ascii s) as [r|]; cbn [rbind]; [|discriminate].
    intros [= <-]. constructor; [lia | apply IH; reflexivity].
Qed.

Lemma encode_ascii_non_ascii (s : string) (c : ascii) :
  In c (list_ascii_of_string s) -> (128 <= nat_of_ascii c)%nat ->
  encode_ascii s = Raise UnicodeError.
Proof.
  induction s as [|d s IH]; cbn [list_ascii_of_string encode_ascii]; [intros []|].
  intros [-> | Hin] Hc.
  - replace (Z.of_nat (nat_of_ascii c) <? 128) with false by lia. reflexivity.
  - destruct (Z.of_nat (nat_of_ascii d) <? 128); [|reflexivity].
    rewrite (IH Hin Hc). reflexivity.
Qed.

(** *** One command *)

Lemma send_command_connected (dev : device) (self : Cmd.controller)
    (command : string) :
  Cmd.is_connected self = true ->
  Cmd.serial_conn self = Some {| is_open := true |} ->
  Cmd.send_command dev self command
  = match encode_ascii (terminated command) with
    | Raise e => ([Log ERROR "Error sending command: {}" [AExn e]], Ok None)
    | Ok request =>
        match dev_write dev request with
        | Raise e =>
            ([SerialWrite request;
              Log ERROR "Error sending command: {}" [AExn e]], Ok None)
        | Ok _ =>
            match dev_pending dev request with
            | Raise e =>
                ([SerialWrite request;
                  Log DEBUG "Sent: {}" [AStr (strip (terminated command))];
                  Sleep 100; SerialReadline;
                  Log ERROR "Error sending command: {}" [AExn e]], Ok None)
            | Ok pending =>
                match decode_ascii (first_line pending) with
                | Raise e =>
                    ([SerialWrite request;
                      Log DEBUG "Sent: {}" [AStr (strip (terminated command))];
                      Sleep 100; SerialReadline;
                      Log ERROR "Error sending command: {}" [AExn e]], Ok None)
                | Ok text =>
                    ([SerialWrite request;
                      Log DEBUG "Sent: {}" [AStr (strip (terminated command))];
                      Sleep 100; SerialReadline;
                      Log DEBUG "Received: {}" [AStr (strip text)]],
                     Ok (Some (strip text)))
                end
            end
        end
    end.
Proof.
  intros Hc Hch. unfold Cmd.send_command. rewrite Hc, Hch. cbn [negb].
  fold (terminated command).
  destruct (encode_ascii (terminated command)) as [request|e]; [|reflexivity].
  cbn [lift bind try_except serial_write serial_readline is_open emit log app].
  destruct (dev_write dev request) as [[]|e]; [|reflexivity].
  cbn [lift bind try_except emit log app].
  destruct (dev_pending dev request) as [pending|e]; [|reflexivity].
  cbn [lift bind try_except emit log ret app].
  destruct (decode_ascii (first_line pending)) as [text|e]; reflexivity.
Qed.

Lemma send_command_bounded (dev : device) (self : Cmd.controller)
    (command : string) :
  (exists o, value_of (Cmd.send_command dev self command) = Ok o)
  /\ (channel_io (trace_of (Cmd.send_command dev self command)) = []
      \/ exists request,
           encode_ascii (terminated command) = Ok request
           /\ (channel_io (trace_of (Cmd.send_command dev self command))
               = [SerialWrite request]
               \/ channel_io (trace_of (Cmd.send_command dev self command))
                  = [SerialWrite request; SerialReadline])).
Proof.
  destruct (Cmd.is_connected self) eqn:Hc;
    [|rewrite send_command_disconnected by exact Hc;
      split; [eexists; reflexivity | left; reflexivity]].
  destruct (Cmd.serial_conn self) as [[[|]]|] eqn:Hch.
  - rewrite (send_command_connected dev self command Hc Hch).
    destruct (encode_ascii (terminated command)) as [request|e];
      [|split; [eexists; reflexivity | left; reflexivity]].
    destruct (dev_write dev request) as [[]|e];
      [|split; [eexists; reflexivity
               | right; exists request; split; [reflexivity | left; reflexivity]]].
    destruct (dev_pending dev request) as [pending|e];
      [|split; [eexists; reflexivity
               | right; exists request; split; [reflexivity | right; reflexivity]]].
    destruct (decode_ascii (first_line pending)) as [text|e];
      (split; [eexists; reflexivity
              | right; exists request; split; [reflexivity | right; reflexivity]]).
  - unfold Cmd.send_command. rewrite Hc, Hch. cbn [negb].
    destruct (encode_ascii _) as [request|e];
      split; first [eexists; reflexivity | left; reflexivity].
  - unfold Cmd.send_command. rewrite Hc, Hch. cbn [negb].
    destruct (encode_ascii _) as [request|e];
      split; first [eexists; reflexivity | left; reflexivity].
Qed.

(** X15: whatever the session state, the command text and the behaviour of
    the line, [send_command] raises nothing (encoding, channel and decoding
    errors are all caught and give no value) and puts at most one command on
    the wire, followed by at most one [readline]. *)
Theorem send_command_one_exchange (dev : device) (self : Cmd.controller)
    (command : string) :
  (exists o, value_of (Cmd.send_command dev self command) = Ok o)
  /\ (channel_io (trace_of (Cmd.send_command dev self command)) = []
      \/ exists request,
           channel_io (trace_of (Cmd.send_command dev self command))
           = [SerialWrite request]
           \/ channel_io (trace_of (Cmd.send_command dev self command))
              = [SerialWrite request; SerialReadline]).
Proof.
  destruct (send_command_bounded dev self command) as [Hv Ht].
  split; [exact Hv|].
  destruct Ht as [H | (request & _ & H)]; eauto.
Qed.

Lemma written_request (dev : device) (self : Cmd.controller) (command : string)
    (request : bytes) :
  In (SerialWrite request) (trace_of (Cmd.send_command dev self command)) ->
  encode_ascii (terminated command) = Ok request.
Proof.
  intros Hin.
  assert (Hio : In (SerialWrite request)
                  (channel_io (trace_of (Cmd.send_command dev self command))))
    by (apply List.filter_In; split; [exact Hin | reflexivity]).
  destruct (send_command_bounded dev self command)
    as [_ [H | (r & Hr & [H | H])]]; rewrite H in Hio; simpl in Hio.
  - contradiction.
  - destruct Hio as [[= <-] | []]. exact Hr.
  - destruct Hio as [[= <-] | [[=] | []]]. exact Hr.
Qed.

(** X16: every command [send_command] writes is 7-bit ASCII and ends with
    CR LF: the bytes are the encoding of the command with CR LF appended
    unless it already ends so.  Hence handing over a command with its CR LF
    attached behaves exactly like handing it over without. *)
Theorem command_termination (dev : device) (self : Cmd.controller)
    (command : string) :
  (forall request,
      In (SerialWrite request) (trace_of (Cmd.send_command dev self command)) ->
      encode_ascii (terminated command) = Ok request
      /\ Forall (fun b => 0 <= b < 128) request
      /\ exists body, request = body ++ [13; 10])
  /\ (endswith command CRLF = false ->
      Cmd.send_command dev self (command +:+ CRLF)
      = Cmd.send_command dev self command).
Proof.
  split.
  - intros request Hin. apply written_request in Hin.
    split; [exact Hin|]. split; [eapply encode_ascii_range, Hin|].
    destruct (terminated_split command) as [p Hp]. rewrite Hp in Hin.
    apply encode_ascii_append in Hin as (body & tail & _ & Ht & ->).
    injection Ht as <-. exists body. reflexivity.
  - intros He. unfold Cmd.send_command.
    rewrite endswith_append, He. reflexivity.
Qed.

Lemma terminated_keeps (command : string) (c : ascii) :
  In c (list_ascii_of_string command) ->
  In c (list_ascii_of_string (terminated command)).
Proof.
  intros Hin. unfold terminated. destruct (negb _); [|exact Hin].
  induction command as [|d s IH]; [destruct Hin|].
  change (String d s +:+ CRLF) with (String d (s +:+ CRLF)).
  cbn [list_ascii_of_string] in *. destruct Hin as [-> | Hin]; [left; reflexivity|].
  right. apply IH, Hin.
Qed.

(** X17: a command holding a character outside 7-bit ASCII is never
    written.  On a connected session that holds a channel object, open or
    closed, the encoding error is caught and logged; when it holds none, the
    lookup of [write] fails first and its [AttributeError] is logged
    instead.  Either way [send_command] returns no value and the channel is
    not touched. *)
Theorem non_ascii_command_not_sent (dev : device) (self : Cmd.controller)
    (command : string) (c : ascii) :
  Cmd.is_connected self = true ->
  In c (list_ascii_of_string command) -> (128 <= nat_of_ascii c)%nat ->
  (forall conn,
      Cmd.serial_conn self = Some conn ->
      Cmd.send_command dev self command
      = ([Log ERROR "Error sending command: {}" [AExn UnicodeError]], Ok None))
  /\ (Cmd.serial_conn self = None ->
      Cmd.send_command dev self command
      = ([Log ERROR "Error sending command: {}" [AExn AttributeError]], Ok None))
  /\ value_of (Cmd.send_command dev self command) = Ok None
  /\ channel_io (trace_of (Cmd.send_command dev self command)) = [].
Proof.
  intros Hc Hin Hn.
  pose proof (encode_ascii_non_ascii (terminated command) c
                (terminated_keeps command c Hin) Hn) as He.
  assert (Hsome : forall conn,
             Cmd.serial_conn self = Some conn ->
             Cmd.send_command dev self command
             = ([Log ERROR "Error sending command: {}" [AExn UnicodeError]],
                Ok None)).
  { intros conn Hs. unfold Cmd.send_command. rewrite Hc, Hs. cbn [negb].
    fold (terminated command). rewrite He. reflexivity. }
  assert (Hnone : Cmd.serial_conn self = None ->
             Cmd.send_command dev self command
             = ([Log ERROR "Error sending command: {}" [AExn AttributeError]],
                Ok None)).
  { intros Hs. unfold Cmd.send_command. rewrite Hc, Hs. reflexivity. }
  split; [exact Hsome|]. split; [exact Hnone|].
  destruct (Cmd.serial_conn self) as [conn|] eqn:Hs.
  - rewrite (Hsome conn eq_refl). split; reflexivity.
  - rewrite (Hnone eq_refl). split; reflexivity.
Qed.

Lemma non_ascii_command_not_sent_witness :
  Cmd.is_connected cmd_connected_session = true
  /\ In (ascii_of_nat 181) (list_ascii_of_string (String (ascii_of_nat 181) "L"))
  /\ (128 <= nat_of_ascii (ascii_of_nat 181))%nat
  /\ Cmd.send_command (replying (fun r => r)) cmd_connected_session
       (String (ascii_of_nat 181) "L")
     = ([Log ERROR "Error sending command: {}" [AExn UnicodeError]], Ok None).
Proof.
  assert (Hin : In (ascii_of_nat 181)
                  (list_ascii_of_string (String (ascii_of_nat 181) "L")))
    by (left; reflexivity).
  assert (Hn : (128 <= nat_of_ascii (ascii_of_nat 181))%nat) by (vm_compute; lia).
  split; [reflexivity|]. split; [exact Hin|]. split; [exact Hn|].
  exact (proj1 (non_ascii_command_not_sent (replying (fun r => r))
                  cmd_connected_session _ _ eq_refl Hin Hn)
           {| is_open := true |} eq_refl).
Defined.

(** *** What counts as success *)

Lemma send_command_reply (dev : device) (self : Cmd.controller)
    (command : string) (request pending : bytes) (text : string) :
  Cmd.is_connected self = true ->
  Cmd.serial_conn self = Some {| is_open := true |} ->
  encode_ascii (terminated command) = Ok request ->
  dev_write dev request = Ok tt ->
  dev_pending dev request = Ok pending ->
  decode_ascii (first_line pending) = Ok text ->
  Cmd.send_command dev self command
  = ([SerialWrite request;
      Log DEBUG "Sent: {}" [AStr (strip (terminated command))];
      Sleep 100; SerialReadline;
      Log DEBUG "Received: {}" [AStr (strip text)]],
     Ok (Some (strip text))).
Proof.
  intros Hc Hch He Hw Hp Hd.
  rewrite (send_command_connected dev self command Hc Hch), He, Hw, Hp, Hd.
  reflexivity.
Qed.

(** X18: on a connected session whose line delivers a decodable reply,
    [get_status] returns the reply line stripped of surrounding white
    space, even when nothing is left of it, while [start], [stop] and
    [set_mode] return [True] exactly when something is left: any non-blank
    reply counts as success, whatever it says, and a blank line or a read
    that times out counts as failure. *)
Theorem reply_text_decides (dev : device) (self : Cmd.controller)
    (pending : bytes) (text : string) :
  Cmd.is_connected self = true ->
  Cmd.serial_conn self = Some {| is_open := true |} ->
  (forall request, dev_write dev request = Ok tt) ->
  (forall request, dev_pending dev request = Ok pending) ->
  decode_ascii (first_line pending) = Ok text ->
  value_of (Cmd.get_status dev self) = Ok (Some (strip text))
  /\ value_of (Cmd.start dev self) = Ok (negb (String.eqb (strip text) ""))
  /\ value_of (Cmd.stop dev self) = Ok (negb (String.eqb (strip text) ""))
  /\ (forall mode,
        value_of (Cmd.set_mode dev self mode)
        = Ok (negb (String.eqb (strip text) ""))).
Proof.
  intros Hc Hch Hw Hp Hd.
  assert (Hsend : forall command request,
             encode_ascii (terminated command) = Ok request ->
             Cmd.send_command dev self command
             = ([SerialWrite request;
                 Log DEBUG "Sent: {}" [AStr (strip (terminated command))];
                 Sleep 100; SerialReadline;
                 Log DEBUG "Received: {}" [AStr (strip text)]],
                Ok (Some (strip text)))).
  { intros command request He.
    apply (send_command_reply dev self command request pending text
             Hc Hch He (Hw _) (Hp _) Hd). }
  split; [|split; [|split]].
  - unfold Cmd.get_status. erewrite Hsend by reflexivity. reflexivity.
  - unfold Cmd.start. erewrite Hsend by reflexivity.
    destruct (strip text); reflexivity.
  - unfold Cmd.stop. erewrite Hsend by reflexivity.
    destruct (strip text); reflexivity.
  - intros mode. unfold Cmd.set_mode.
    destruct mode; cbn [Cmd.mode_commands];
      (erewrite Hsend by reflexivity); destruct (strip text); reflexivity.
Qed.

Lemma reply_text_decides_witness :
  Cmd.is_connected cmd_connected_session = true
  /\ Cmd.serial_conn cmd_connected_session = Some {| is_open := true |}
  /\ decode_ascii (first_line [13; 10]) = Ok CRLF
  /\ value_of (Cmd.get_status (replying (fun _ => [13; 10])) cmd_connected_session)
     = Ok (Some "")
  /\ value_of (Cmd.start (replying (fun _ => [13; 10])) cmd_connected_session)
     = Ok false.
Proof.
  assert (Hd : decode_ascii (first_line [13; 10]) = Ok CRLF) by reflexivity.
  split; [reflexivity|]. split; [reflexivity|]. split; [exact Hd|].
  destruct (reply_text_decides (replying (fun _ => [13; 10])) cmd_connected_session
              [13; 10] CRLF eq_refl eq_refl (fun _ => eq_refl) (fun _ => eq_refl) Hd)
    as (Hstatus & Hstart & _).
  split; [exact Hstatus | exact Hstart].
Defined.

(** *** Setters without a range check *)

Lemma send_command_one_write (dev : device) (self : Cmd.controller)
    (command : string) (request : bytes) :
  Cmd.is_connected self = true ->
  Cmd.serial_conn self = Some {| is_open := true |} ->
  encode_ascii (terminated command) = Ok request ->
  List.filter is_write (trace_of (Cmd.send_command dev self command))
  = [SerialWrite request].
Proof.
  intros Hc Hch He.
  rewrite (send_command_connected dev self command Hc Hch), He.
  destruct (dev_write dev request) as [[]|e]; [|reflexivity].
  destruct (dev_pending dev request) as [pending|e]; [|reflexivity].
  destruct (decode_ascii (first_line pending)) as [text|e]; reflexivity.
Qed.

Lemma writes_after_send_command (dev : device) (self : Cmd.controller)
    (command : string) (request : bytes) (k : option string -> io bool) :
  List.filter is_write (trace_of (Cmd.send_command dev self command))
  = [SerialWrite request] ->
  (forall o, List.filter is_write (trace_of (k o)) = []) ->
  List.filter is_write
    (trace_of (response <- Cmd.send_command dev self command ;; k response)%io)
  = [SerialWrite request].
Proof.
  intros Hone Hk. unfold trace_of in *.
  destruct (Cmd.send_command dev self command) as [t [o|e]]; [|exact Hone].
  specialize (Hk o). cbn [bind fst]. destruct (k o) as [t' r]. cbn [fst] in *.
  rewrite List.filter_app, Hone, Hk. reflexivity.
Qed.

(** X19: [set_volume], [set_syringe_diameter] and [modify_flow_rate_online]
    check no range: on a connected session they send their command for
    every float, whatever its sign or size, whenever the formatted text is
    ASCII.  In particular [modify_flow_rate_online] sends a rate that
    [set_flow_rate] refuses without touching the wire. *)
Theorem setters_without_range_check (format_3f : spec_float -> string)
    (dev : device) (self : Cmd.controller) (x : spec_float) :
  Cmd.is_connected self = true ->
  Cmd.serial_conn self = Some {| is_open := true |} ->
  (forall request,
      encode_ascii (terminated ("VOL:" +:+ format_3f x)) = Ok request ->
      List.filter is_write (trace_of (Cmd.set_volume format_3f dev self x))
      = [SerialWrite request])
  /\ (forall request,
        encode_ascii (terminated ("DIA:" +:+ format_3f x)) = Ok request ->
        List.filter is_write
          (trace_of (Cmd.set_syringe_diameter format_3f dev self x))
        = [SerialWrite request])
  /\ (forall request,
        encode_ascii (terminated ("RATE_ONLINE:" +:+ format_3f x)) = Ok request ->
        List.filter is_write
          (trace_of (Cmd.modify_flow_rate_online format_3f dev self x))
        = [SerialWrite request])
  /\ (between (float_lit 1 3) x (float_of_Z 127000) = false ->
      List.filter is_write (trace_of (Cmd.set_flow_rate format_3f dev self x)) = [])
  /\ (forall request,
        between (float_lit 1 3) x (float_of_Z 127000) = true ->
        encode_ascii (terminated ("RATE:" +:+ format_3f x)) = Ok request ->
        List.filter is_write (trace_of (Cmd.set_flow_rate format_3f dev self x))
        = [SerialWrite request]).
Proof.
  intros Hc Hch.
  assert (Hafter : forall command request (k : option string -> io bool),
             encode_ascii (terminated command) = Ok request ->
             (forall o, List.filter is_write (trace_of (k o)) = []) ->
             List.filter is_write
               (trace_of (response <- Cmd.send_command dev self command ;;
                          k response)%io)
             = [SerialWrite request]).
  { intros command request k He Hk. apply writes_after_send_command; [|exact Hk].
    apply send_command_one_write; assumption. }
  split; [|split; [|split; [|split]]].
  - intros request He. unfold Cmd.set_volume. apply Hafter; [exact He|].
    intros [[|c r]|]; reflexivity.
  - intros request He. unfold Cmd.set_syringe_diameter. apply Hafter; [exact He|].
    intros [[|c r]|]; reflexivity.
  - intros request He. unfold Cmd.modify_flow_rate_online.
    apply Hafter; [exact He|]. intros [[|c r]|]; reflexivity.
  - intros Hb. rewrite cmd_flow_rate_rejected by exact Hb. reflexivity.
  - intros request Hb He. unfold Cmd.set_flow_rate. rewrite Hb. cbn [negb].
    apply Hafter; [exact He|]. intros [[|c r]|]; reflexivity.
Qed.

Lemma setters_without_range_check_witness :
  Cmd.is_connected cmd_connected_session = true
  /\ Cmd.serial_conn cmd_connected_session = Some {| is_open := true |}
  /\ between (float_lit 1 3) (float_of_Z 200000) (float_of_Z 127000) = false
  /\ List.filter is_write
       (trace_of (Cmd.set_flow_rate (fun _ => "200000.000")
                    (replying (fun r => r)) cmd_connected_session
                    (float_of_Z 200000))) = []
  /\ List.filter is_write
       (trace_of (Cmd.modify_flow_rate_online (fun _ => "200000.000")
                    (replying (fun r => r)) cmd_connected_session
                    (float_of_Z 200000)))
     = [SerialWrite [82; 65; 84; 69; 95; 79; 78; 76; 73; 78; 69; 58;
                     50; 48; 48; 48; 48; 48; 46; 48; 48; 48; 13; 10]].
Proof.
  assert (Hb : between (float_lit 1 3) (float_of_Z 200000) (float_of_Z 127000)
               = false) by (vm_compute; reflexivity).
  split; [reflexivity|]. split; [reflexivity|]. split; [exact Hb|].
  destruct (setters_without_range_check (fun _ => "200000.000")
              (replying (fun r => r)) cmd_connected_session (float_of_Z 200000)
              eq_refl eq_refl) as (_ & _ & Honline & Hrefused & _).
  split; [exact (Hrefused Hb)|].
  apply Honline. reflexivity.
Defined.

(** X20: on a connected session each command of the command-string driver
    is one line: [start] writes START, [stop] writes STOP, [get_status]
    writes STATUS and [set_mode] writes MODE:INF, MODE:WDR, MODE:I/W or
    MODE:W/I, each followed by CR LF, and nothing else is written. *)
Theorem command_lines (dev : device) (self : Cmd.controller) :
  Cmd.is_connected self = true ->
  Cmd.serial_conn self = Some {| is_open := true |} ->
  List.filter is_write (trace_of (Cmd.start dev self))
  = [SerialWrite [83; 84; 65; 82; 84; 13; 10]]
  /\ List.filter is_write (trace_of (Cmd.stop dev self))
     = [SerialWrite [83; 84; 79; 80; 13; 10]]
  /\ List.filter is_write (trace_of (Cmd.get_status dev self))
     = [SerialWrite [83; 84; 65; 84; 85; 83; 13; 10]]
  /\ (forall mode,
        List.filter is_write (trace_of (Cmd.set_mode dev self mode))
        = [SerialWrite
             ([77; 79; 68; 69; 58]
              ++ match mode with
                 | INFUSION => [73; 78; 70]
                 | WITHDRAWAL => [87; 68; 82]
                 | INFUSION_WITHDRAWAL => [73; 47; 87]
                 | WITHDRAWAL_INFUSION => [87; 47; 73]
                 end ++ [13; 10])]).
Proof.
  intros Hc Hch.
  split; [|split; [|split]].
  - unfold Cmd.start. apply writes_after_send_command;
      [apply send_command_one_write; auto | intros [[|c r]|]; reflexivity].
  - unfold Cmd.stop. apply writes_after_send_command;
      [apply send_command_one_write; auto | intros [[|c r]|]; reflexivity].
  - unfold Cmd.get_status. apply send_command_one_write; auto.
  - intros mode. unfold Cmd.set_mode.
    destruct mode; cbn [Cmd.mode_commands];
      (apply writes_after_send_command;
       [apply send_command_one_write; auto | intros [[|c r]|]; reflexivity]).
Qed.

Lemma command_lines_witness :
  Cmd.is_connected cmd_connected_session = true
  /\ Cmd.serial_conn cmd_connected_session = Some {| is_open := true |}
  /\ List.filter is_write
       (trace_of (Cmd.set_mode (replying (fun r => r)) cmd_connected_session
                    INFUSION_WITHDRAWAL))
     = [SerialWrite [77; 79; 68; 69; 58; 73; 47; 87; 13; 10]].
Proof.
  split; [reflexivity|]. split; [reflexivity|].
  destruct (command_lines (replying (fun r => r)) cmd_connected_session
              eq_refl eq_refl) as (_ & _ & _ & Hmode).
  exact (Hmode INFUSION_WITHDRAWAL).
Defined.

(** *** The mode menu of [custom_sequence] *)

(** X21: [modes[mode_choice - 1]] picks for a choice from 1 to 4 the mode
    whose register code is that choice.  A choice from -3 to 0 does not
    fail: the negative index counts from the end of the list, so 0 picks
    Withdrawal/Infusion.  Every other choice raises [IndexError]. *)
Theorem chosen_mode_cases (mode_choice : Z) :
  (1 <= mode_choice <= 4 ->
   exists mode, chosen_mode mode_choice = Ok mode
                /\ Modbus.mode_values mode = Some mode_choice)
  /\ (-3 <= mode_choice <= 0 ->
      exists mode, chosen_mode mode_choice = Ok mode
                   /\ Modbus.mode_values mode = Some (mode_choice + 4))
  /\ (mode_choice < -3 \/ 4 < mode_choice ->
      chosen_mode mode_choice = Raise IndexError)
  /\ chosen_mode 0 = Ok WITHDRAWAL_INFUSION.
Proof.
  split; [|split; [|split]].
  - intros H.
    assert (mode_choice = 1 \/ mode_choice = 2 \/ mode_choice = 3 \/ mode_choice = 4)
      as [-> | [-> | [-> | ->]]] by lia; eexists; split; reflexivity.
  - intros H.
    assert (mode_choice = -3 \/ mode_choice = -2 \/ mode_choice = -1
            \/ mode_choice = 0)
      as [-> | [-> | [-> | ->]]] by lia; eexists; split; reflexivity.
  - intros H. unfold chosen_mode, py_getitem, modes. cbn [length Z.of_nat].
    change (Z.of_nat 4) with 4.
    destruct (mode_choice - 1 <? 0) eqn:E.
    + replace ((0 <=? mode_choice - 1 + 4) && (mode_choice - 1 + 4 <? 4))
        with false by lia. reflexivity.
    + replace ((0 <=? mode_choice - 1) && (mode_choice - 1 <? 4))
        with false by lia. reflexivity.
  - reflexivity.
Qed.

Lemma chosen_mode_cases_witness :
  1 <= 3 <= 4 /\ (5 < -3 \/ 4 < 5)
  /\ chosen_mode 3 = Ok INFUSION_WITHDRAWAL
  /\ chosen_mode 5 = Raise IndexError.
Proof.
  split; [lia|]. split; [lia|]. split.
  - reflexivity.
  - apply (proj1 (proj2 (proj2 (chosen_mode_cases 5)))). lia.
Defined.

End CommandEngine.
